(** * Expense form logic of opencollective-frontend

    A shallow embedding of the pure helpers of
    [components/expenses/ExpenseForm.js] (shipped in the file
    [src/components/CollectivePickerInviteMenu.js], after the invite menu) and
    of [components/expenses/ExpenseFormPayeeSignUpStep.js]:
    [getPayoutMethodsFromPayee] (one copy in each file),
    [prepareExpenseForSubmit] and [validate].

    The functions work on plain JavaScript data, so the embedding is a small
    untyped value model with the handful of language and lodash operations
    the helpers use.  A [TypeError] is the [None] of an error monad. *)

From Stdlib Require Import List String ZArith Bool Lia.
Import ListNotations.
Local Open Scope string_scope.
Local Open Scope list_scope.

(* ================================================================== *)
(** ** JavaScript values *)

Module JS.

#[local] Set Warnings "-register-all".

(** Numbers are the integers the forms carry (ids, amounts in cents);
    functions and symbols never occur in form data. *)
Inductive value : Type :=
| VUndef
| VNull
| VBool (b : bool)
| VNum (n : Z)
| VStr (s : string)
| VArr (xs : list value)
| VObj (fields : list (string * value)).

(** Own properties of an object, in insertion order. *)
Definition fields := list (string * value).

(** The error monad: [None] is a raised [TypeError] (and, in [gt_zero]
    alone, a numeric conversion the embedding leaves out). *)
Definition M (A : Type) : Type := option A.
Definition ret {A} (a : A) : M A := Some a.
Definition throw {A} : M A := None.
Definition bind {A B} (c : M A) (k : A -> M B) : M B :=
  match c with
  | Some a => k a
  | None => None
  end.

(** ToBoolean. *)
Definition truthy (v : value) : bool :=
  match v with
  | VUndef | VNull => false
  | VBool b => b
  | VNum n => negb (n =? 0)%Z
  | VStr s => negb (s =? "")
  | VArr _ | VObj _ => true
  end.

Definition nullish (v : value) : bool :=
  match v with
  | VUndef | VNull => true
  | _ => false
  end.

Definition typeof (v : value) : string :=
  match v with
  | VUndef => "undefined"
  | VNull => "object"
  | VBool _ => "boolean"
  | VNum _ => "number"
  | VStr _ => "string"
  | VArr _ | VObj _ => "object"
  end.

(** [v === s] for a string constant [s]. *)
Definition strict_eq_str (v : value) (s : string) : bool :=
  match v with
  | VStr s' => s' =? s
  | _ => false
  end.

Fixpoint lookup (k : string) (fs : fields) : option value :=
  match fs with
  | [] => None
  | (k', v) :: fs' => if k' =? k then Some v else lookup k fs'
  end.

(** Reading property [k] of a value that is not nullish.  The property
    names the helpers read are fixed identifiers ([id], [type], [items]
    ...); only objects carry them, [length] apart, which is read through
    [length_of] below. *)
Definition prop (v : value) (k : string) : value :=
  match v with
  | VObj fs => match lookup k fs with Some x => x | None => VUndef end
  | _ => VUndef
  end.

(** [v.k]: a [TypeError] on [undefined] and [null]. *)
Definition member (v : value) (k : string) : M value :=
  if nullish v then throw else ret (prop v k).

(** [v?.k]. *)
Definition opt_member (v : value) (k : string) : value :=
  if nullish v then VUndef else prop v k.

(** [v.length]. *)
Definition length_of (v : value) : M value :=
  match v with
  | VUndef | VNull => throw
  | VArr xs => ret (VNum (Z.of_nat (List.length xs)))
  | VStr s => ret (VNum (Z.of_nat (String.length s)))
  | _ => ret (prop v "length")
  end.

(** [v > 0].  [undefined] converts to NaN and [null] to 0; the numeric
    conversion of strings, arrays and objects is not part of the
    embedding, which stops there. *)
Definition gt_zero (v : value) : M bool :=
  match v with
  | VNum n => ret (0 <? n)%Z
  | VBool b => ret b
  | VUndef | VNull => ret false
  | VStr _ | VArr _ | VObj _ => throw
  end.

(** Calling an array method on [v]: only arrays have [filter], [map] ... *)
Definition as_array (v : value) : M (list value) :=
  match v with
  | VArr xs => ret xs
  | _ => throw
  end.

(** [a || b]. *)
Definition or_else (a b : value) : value := if truthy a then a else b.

(** [k in o] for an object. *)
Definition has (k : string) (fs : fields) : bool :=
  match lookup k fs with Some _ => true | None => false end.

(** [o[k] = v]: an existing key keeps its place, a new one goes last. *)
Fixpoint set_field (k : string) (v : value) (fs : fields) : fields :=
  match fs with
  | [] => [(k, v)]
  | (k', v') :: fs' =>
      if k' =? k then (k, v) :: fs' else (k', v') :: set_field k v fs'
  end.

(** The own enumerable properties of a value, as an object spread or
    [Object.assign] reads them; the helpers only spread objects. *)
Definition own (v : value) : fields :=
  match v with
  | VObj fs => fs
  | _ => []
  end.

(** [Object.assign(target, source)], also the object spread and the
    properties of an object literal, written in order. *)
Definition assign (target source : fields) : fields :=
  fold_left (fun acc kv => set_field (fst kv) (snd kv) acc) source target.

(** [Array.prototype.filter], [find], [map] and [some] with a callback that
    may raise. *)
Fixpoint filterM (f : value -> M bool) (xs : list value) : M (list value) :=
  match xs with
  | [] => ret []
  | x :: xs' =>
      bind (f x) (fun keep =>
      bind (filterM f xs') (fun r =>
      ret (if keep then x :: r else r)))
  end.

Fixpoint findM (f : value -> M bool) (xs : list value) : M value :=
  match xs with
  | [] => ret VUndef
  | x :: xs' =>
      bind (f x) (fun hit => if hit then ret x else findM f xs')
  end.

Fixpoint mapM (f : value -> M value) (xs : list value) : M (list value) :=
  match xs with
  | [] => ret []
  | x :: xs' =>
      bind (f x) (fun y => bind (mapM f xs') (fun r => ret (y :: r)))
  end.

(** [list.includes(v)] for a list of string constants. *)
Definition includes (l : list string) (v : value) : bool :=
  existsb (strict_eq_str v) l.

End JS.
Import JS.

Declare Scope js_scope.
Notation "x <- c ;; k" := (bind c (fun x => k))
  (at level 61, c at next level, right associativity) : js_scope.
Local Open Scope js_scope.

(* ================================================================== *)
(** ** lodash *)

Module Lodash.

(** [get(object, key)]: [undefined] when [object] is nullish. *)
Definition get (object : value) (key : string) : value := prop object key.

(** [get(object, 'a.b')], the path already split at the dots. *)
Definition get_path (object : value) (path : list string) : value :=
  fold_left get path object.

(** [key in Object(object)]. *)
Definition hasIn (object : value) (key : string) : bool :=
  match object with
  | VObj fs => has key fs
  | _ => false
  end.

(** [pick(object, paths)]: a new object with the listed properties that
    [object] has, set one after the other. *)
Definition pick (object : value) (paths : list string) : value :=
  VObj (fold_left
          (fun acc k =>
             if hasIn object k then set_field k (get object k) acc else acc)
          paths []).

(** [set(object, path, v)], creating the objects on the way. *)
Fixpoint set (path : list string) (v : value) (fs : fields) : fields :=
  match path with
  | [] => fs
  | k :: rest =>
      match rest with
      | [] => set_field k v fs
      | _ :: _ =>
          let child :=
            match lookup k fs with Some (VObj c) => c | _ => [] end in
          set_field k (VObj (set rest v child)) fs
      end
  end.

(** [isEmpty(v)]: no element, no character, no own key; [true] on nullish
    values, numbers and booleans. *)
Definition isEmpty (v : value) : bool :=
  match v with
  | VArr xs => match xs with [] => true | _ => false end
  | VStr s => s =? ""
  | VObj fs => match fs with [] => true | _ => false end
  | _ => true
  end.

End Lodash.

(* ================================================================== *)
(** ** What the components import *)

(** The constants of [lib/constants] ([expenseTypes], [PayoutMethodType],
    [collectives]) and the validators of [ExpenseItemForm] and
    [PayoutMethodForm] are not among the sources: the components are embedded
    over any value of them. *)
Class Imports : Type := {
  INVOICE : string;
  RECEIPT : string;
  FUNDING_REQUEST : string;
  ACCOUNT_BALANCE : string;
  CollectiveFamilyTypes : list string;
  AccountTypesWithHost : list string;
  validateExpenseItem : value -> value -> value;
  validatePayoutMethod : value -> value
}.

Module FormUtils.

(** Modelled from the spec: the error descriptor of a required field,
    [createError(ERROR.FORM_FIELD_REQUIRED)] of [lib/errors], which is not
    among the sources; a string-tagged kind (spec 7). *)
Definition FORM_FIELD_REQUIRED : value := VStr "FORM_FIELD_REQUIRED".

(** Modelled from the spec: a field is missing when it is [undefined] or
    [null] and empty when it is the empty string (spec 4.2, rule 1). *)
Definition isMissing (v : value) : bool :=
  match v with
  | VUndef | VNull => true
  | VStr s => s =? ""
  | _ => false
  end.

(** Modelled from the spec: [requireFields] of [lib/form-utils], which is
    not among the sources.  For each listed field, in order, a missing or
    empty value puts [FORM_FIELD_REQUIRED] at the field's path of a new
    error mapping, nested for a dotted path (spec 4.2, rules 1 and 4). *)
Definition requireFields (obj : value) (fields : list (list string)) : value :=
  VObj (fold_left
          (fun errors field =>
             if isMissing (Lodash.get_path obj field)
             then Lodash.set field FORM_FIELD_REQUIRED errors
             else errors)
          fields []).

End FormUtils.

(** The object literal pushed in front of the saved payout methods. *)
Definition newAccountBalance (accountBalance : string) : value :=
  VObj [("id", VStr "new"); ("data", VObj []);
        ("type", VStr accountBalance); ("isSaved", VBool true)].

(* ================================================================== *)
(** ** components/expenses/ExpenseFormPayeeSignUpStep.js *)

Module ExpenseFormPayeeSignUpStep.
Section WithImports.
Context `{Imports}.

Definition EMPTY_ARRAY : list value := [].

Definition getPayoutMethodsFromPayee (payee : value) : M (list value) :=
  let basePms := or_else (Lodash.get payee "payoutMethods") (VArr EMPTY_ARRAY) in
  basePms <- as_array basePms ;;
  filteredPms <- filterM (fun pm => isSaved <- member pm "isSaved" ;;
                                    ret (truthy isSaved)) basePms ;;
  filteredPms <-
    (if truthy (opt_member payee "isActive") then
       found <- findM (fun pm => type <- member pm "type" ;;
                                 ret (strict_eq_str type ACCOUNT_BALANCE))
                      filteredPms ;;
       ret (if negb (truthy found)
            then newAccountBalance ACCOUNT_BALANCE :: filteredPms
            else filteredPms)
     else ret filteredPms) ;;
  filteredPms <-
    (if truthy payee && includes AccountTypesWithHost (prop payee "type") then
       filterM (fun pm => type <- member pm "type" ;;
                          ret (strict_eq_str type ACCOUNT_BALANCE))
               filteredPms
     else ret filteredPms) ;;
  ret (if (0 <? List.length filteredPms)%nat then filteredPms else EMPTY_ARRAY).

End WithImports.
End ExpenseFormPayeeSignUpStep.

(* ================================================================== *)
(** ** components/expenses/ExpenseForm.js *)

Module ExpenseForm.
Section WithImports.
Context `{Imports}.

(** The payee reference: [payee && { [payeeIdField]: payee.id }]. *)
Definition payeeReference (payee : value) : value :=
  let payeeIdField :=
    if typeof (opt_member payee "id") =? "string" then "id" else "legacyId" in
  if truthy payee then VObj [(payeeIdField, prop payee "id")] else payee.

(** The properties kept of an item: no [id] for an item created in this
    session, no [url] for invoices and funding requests. *)
Definition itemPaths (isNew isInvoice isFundingRequest : bool) : list string :=
  (if isNew then [] else ["id"])
    ++ (if isInvoice || isFundingRequest then [] else ["url"])
    ++ ["description"; "incurredAt"; "amount"].

(** The callback of [expenseData.items.map]. *)
Definition prepareItem (isInvoice isFundingRequest : bool) (item : value)
  : M value :=
  isNew <- member item "__isNew" ;;
  ret (Lodash.pick item (itemPaths (truthy isNew) isInvoice isFundingRequest)).

Definition prepareExpenseForSubmit (expenseData : value) : M value :=
  payee <- member expenseData "payee" ;;
  type <- member expenseData "type" ;;
  let isInvoice := strict_eq_str type INVOICE in
  let isFundingRequest := strict_eq_str type FUNDING_REQUEST in
  payoutMethod <- member expenseData "payoutMethod" ;;
  payeeLocation <- member expenseData "payeeLocation" ;;
  attachedFiles <- member expenseData "attachedFiles" ;;
  files <-
    (if isInvoice then
       if nullish attachedFiles then ret VUndef
       else fs <- as_array attachedFiles ;;
            ret (VArr (map (fun file => Lodash.pick file ["id"; "url"]) fs))
     else ret (VArr [])) ;;
  items <- member expenseData "items" ;;
  items <- as_array items ;;
  items <- mapM (prepareItem isInvoice isFundingRequest) items ;;
  ret (VObj
         (assign
            (own (Lodash.pick expenseData
                    ["id"; "description"; "longDescription"; "type";
                     "privateMessage"; "invoiceInfo"; "tags"]))
            [("payee", payeeReference payee);
             ("payoutMethod",
               Lodash.pick payoutMethod ["id"; "name"; "data"; "isSaved"; "type"]);
             ("payeeLocation",
               if isInvoice
               then Lodash.pick payeeLocation ["address"; "country"]
               else VNull);
             ("attachedFiles", files);
             ("items", VArr items)])).

Definition validate (expense : value) : M value :=
  let errors :=
    own (FormUtils.requireFields expense
           [["description"]; ["payee"]; ["payoutMethod"]; ["currency"]]) in
  items <- member expense "items" ;;
  len <- length_of items ;;
  nonEmpty <- gt_zero len ;;
  errors <-
    (if nonEmpty then
       items <- as_array items ;;
       let itemsErrors := map (validateExpenseItem expense) items in
       let hasErrors := existsb (fun e => negb (Lodash.isEmpty e)) itemsErrors in
       ret (if hasErrors then set_field "items" (VArr itemsErrors) errors
            else errors)
     else ret errors) ;;
  payoutMethod <- member expense "payoutMethod" ;;
  let errors :=
    if truthy payoutMethod then
      let payoutMethodErrors := validatePayoutMethod payoutMethod in
      if negb (Lodash.isEmpty payoutMethodErrors)
      then set_field "payoutMethod" payoutMethodErrors errors
      else errors
    else errors in
  type <- member expense "type" ;;
  let errors :=
    if strict_eq_str type INVOICE then
      assign errors
        (own (FormUtils.requireFields expense
                [["payeeLocation"; "country"]; ["payeeLocation"; "address"]]))
    else errors in
  ret (VObj errors).

Definition EMPTY_ARRAY : list value := [].

Definition getPayoutMethodsFromPayee (payee : value) : M (list value) :=
  let basePms := or_else (Lodash.get payee "payoutMethods") (VArr EMPTY_ARRAY) in
  basePms <- as_array basePms ;;
  filteredPms <- filterM (fun pm => isSaved <- member pm "isSaved" ;;
                                    ret (truthy isSaved)) basePms ;;
  filteredPms <-
    (if truthy (opt_member payee "isActive") then
       found <- findM (fun pm => type <- member pm "type" ;;
                                 ret (strict_eq_str type ACCOUNT_BALANCE))
                      filteredPms ;;
       ret (if negb (truthy found)
            then newAccountBalance ACCOUNT_BALANCE :: filteredPms
            else filteredPms)
     else ret filteredPms) ;;
  filteredPms <-
    (if truthy payee && includes CollectiveFamilyTypes (prop payee "type") then
       filterM (fun pm => type <- member pm "type" ;;
                          ret (strict_eq_str type ACCOUNT_BALANCE))
               filteredPms
     else ret filteredPms) ;;
  ret (if (0 <? List.length filteredPms)%nat then filteredPms else EMPTY_ARRAY).

End WithImports.
End ExpenseForm.

(* ================================================================== *)
(** ** Vocabulary of the statements *)

(** The payout methods a payee declares: [payee.payoutMethods], the empty
    sequence when the payee is absent or declares none. *)
Definition payoutMethodsOf (payee : value) : list value :=
  match prop payee "payoutMethods" with
  | VArr pms => pms
  | _ => []
  end.

Definition isSaved (pm : value) : bool := truthy (prop pm "isSaved").

(** The saved payout methods of a payee, in their original order. *)
Definition savedMethods (payee : value) : list value :=
  filter isSaved (payoutMethodsOf payee).

Definition isAccountBalance `{Imports} (pm : value) : bool :=
  strict_eq_str (prop pm "type") ACCOUNT_BALANCE.

(** What the filter computes on an accepted payee, for a given family of
    account types: the saved methods, the new account balance in front when
    the payee is active and has none, the whole restricted to account
    balances for a payee of the family. *)
Definition eligible `{Imports} (family : list string) (payee : value) : list value :=
  let saved := savedMethods payee in
  let pms :=
    if truthy (prop payee "isActive") && negb (existsb isAccountBalance saved)
    then newAccountBalance ACCOUNT_BALANCE :: saved
    else saved in
  if includes family (prop payee "type") then filter isAccountBalance pms else pms.

(** Membership in a list of property names, and lists without repetition. *)
Definition mem (k : string) (ks : list string) : bool :=
  existsb (String.eqb k) ks.

Fixpoint distinct (ks : list string) : bool :=
  match ks with
  | [] => true
  | k :: ks' => negb (mem k ks') && distinct ks'
  end.

(** The listed properties that a value has, in the order of the list. *)
Definition pick_list (object : value) (paths : list string) : fields :=
  flat_map (fun k => if Lodash.hasIn object k
                     then [(k, Lodash.get object k)] else [])
           paths.

(** The items of a draft. *)
Definition itemsOf (draft : value) : list value :=
  match prop draft "items" with
  | VArr xs => xs
  | _ => []
  end.

(** An item as submitted for an expense of type [type]. *)
Definition submittedItem `{Imports} (type item : value) : value :=
  Lodash.pick item
    (ExpenseForm.itemPaths (truthy (prop item "__isNew"))
       (strict_eq_str type INVOICE) (strict_eq_str type FUNDING_REQUEST)).

(** An attached file as submitted. *)
Definition submittedFile (file : value) : value :=
  Lodash.pick file ["id"; "url"].

(** The scalar properties a submission retains. *)
Definition scalarPaths : list string :=
  ["id"; "description"; "longDescription"; "type";
   "privateMessage"; "invoiceInfo"; "tags"].

(** The properties the reducer computes, around a given payee reference. *)
Definition payloadEntries `{Imports} (payee draft : value) : fields :=
  let type := prop draft "type" in
  let isInvoice := strict_eq_str type INVOICE in
  [("payee", payee);
   ("payoutMethod",
     Lodash.pick (prop draft "payoutMethod")
       ["id"; "name"; "data"; "isSaved"; "type"]);
   ("payeeLocation",
     if isInvoice
     then Lodash.pick (prop draft "payeeLocation") ["address"; "country"]
     else VNull);
   ("attachedFiles",
     if isInvoice
     then match prop draft "attachedFiles" with
          | VArr fs => VArr (map submittedFile fs)
          | _ => VUndef
          end
     else VArr []);
   ("items", VArr (map (submittedItem type) (itemsOf draft)))].

(** The payload of an accepted draft: the scalar properties it has, then the
    computed ones. *)
Definition payloadWith `{Imports} (payee draft : value) : value :=
  VObj (pick_list draft scalarPaths ++ payloadEntries payee draft).

Definition payload `{Imports} (draft : value) : value :=
  payloadWith (ExpenseForm.payeeReference (prop draft "payee")) draft.

(** The errors gathered before the invoice rule, for a draft whose items
    are an array. *)
Definition errorsBeforeInvoiceRule `{Imports} (draft : value) (items : list value) : fields :=
  let errors :=
    own (FormUtils.requireFields draft
           [["description"]; ["payee"]; ["payoutMethod"]; ["currency"]]) in
  let itemsErrors := map (validateExpenseItem draft) items in
  let errors :=
    if (0 <? Z.of_nat (List.length items))%Z
       && existsb (fun e => negb (Lodash.isEmpty e)) itemsErrors
    then set_field "items" (VArr itemsErrors) errors else errors in
  let payoutMethod := prop draft "payoutMethod" in
  if truthy payoutMethod && negb (Lodash.isEmpty (validatePayoutMethod payoutMethod))
  then set_field "payoutMethod" (validatePayoutMethod payoutMethod) errors
  else errors.

(** The two fields the invoice rule requires. *)
Definition locationPaths : list (list string) :=
  [["payeeLocation"; "country"]; ["payeeLocation"; "address"]].

(** The two copies of the filter, each with the family constant it tests. *)
Definition copies `{Imports} : list (list string * (value -> M (list value))) :=
  [(CollectiveFamilyTypes, ExpenseForm.getPayoutMethodsFromPayee);
   (AccountTypesWithHost, ExpenseFormPayeeSignUpStep.getPayoutMethodsFromPayee)].

(** Every entry is an account balance. *)
Definition onlyAccountBalance `{Imports} (pms : list value) : Prop :=
  Forall (fun pm => prop pm "type" = VStr ACCOUNT_BALANCE) pms.

(** A payee the eligibility filter accepts: [payoutMethods] is absent (or
    falsy) or an array without [undefined] or [null] entries. *)
Definition wf_payee (payee : value) : bool :=
  let pms := prop payee "payoutMethods" in
  if truthy pms then
    match pms with
    | VArr xs => forallb (fun pm => negb (nullish pm)) xs
    | _ => false
    end
  else true.

(** A draft the submission reducer accepts: an object (anything but
    [undefined] and [null]) whose [items] is an array without [undefined] or
    [null] entries and whose [attachedFiles] is absent or an array. *)
Definition wf_draft (draft : value) : bool :=
  negb (nullish draft)
  && match prop draft "items" with
     | VArr xs => forallb (fun item => negb (nullish item)) xs
     | _ => false
     end
  && match prop draft "attachedFiles" with
     | VUndef | VNull | VArr _ => true
     | _ => false
     end.

(** Modelled from the spec: values for the imported constants, which are not
    among the sources.  The type tags are the ones the spec's examples use
    (spec 8), the collective family is the one the comment in
    [getPayoutMethodsFromPayee] names (Collective, Fund, Event, Project); the
    two collaborators report no error. *)
Definition sampleImports : Imports := {|
  INVOICE := "INVOICE";
  RECEIPT := "RECEIPT";
  FUNDING_REQUEST := "FUNDING_REQUEST";
  ACCOUNT_BALANCE := "ACCOUNT_BALANCE";
  CollectiveFamilyTypes := ["COLLECTIVE"; "FUND"; "EVENT"; "PROJECT"];
  AccountTypesWithHost := ["COLLECTIVE"; "EVENT"; "FUND"; "PROJECT"];
  validateExpenseItem := fun _ _ => VObj [];
  validatePayoutMethod := fun _ => VObj []
|}.

(** Sample data: a saved bank account, an ad hoc method, an active
    collective, an active host organization and an individual. *)
Definition bankAccount : value :=
  VObj [("id", VStr "pm-1"); ("type", VStr "BANK_ACCOUNT");
        ("isSaved", VBool true); ("data", VObj [("currency", VStr "EUR")])].

Definition adHocMethod : value :=
  VObj [("type", VStr "OTHER"); ("isSaved", VBool false);
        ("data", VObj [("content", VStr "cheque")])].

Definition savedBalance : value :=
  VObj [("id", VStr "pm-2"); ("type", VStr "ACCOUNT_BALANCE");
        ("isSaved", VBool true); ("data", VObj [])].

Definition activeCollective : value :=
  VObj [("id", VStr "acc-1"); ("type", VStr "COLLECTIVE");
        ("isActive", VBool true);
        ("payoutMethods", VArr [adHocMethod; bankAccount])].

Definition activeHost : value :=
  VObj [("id", VStr "acc-2"); ("type", VStr "ORGANIZATION");
        ("isActive", VBool true);
        ("payoutMethods", VArr [adHocMethod; bankAccount])].

Definition individual : value :=
  VObj [("id", VStr "acc-3"); ("type", VStr "USER");
        ("isActive", VBool false);
        ("payoutMethods", VArr [bankAccount; adHocMethod; savedBalance])].

(** Sample drafts: a receipt whose payee was created on the fly by the
    collective picker, with a numeric identifier, and an invoice whose payee
    has a string identifier. *)
Definition lunch : value :=
  VObj [("id", VStr "item-1"); ("__isNew", VBool true);
        ("url", VStr "https://example.org/receipt.png");
        ("description", VStr "Lunch"); ("incurredAt", VStr "2020-07-01");
        ("amount", VNum 1250)].

Definition receiptDraft : value :=
  VObj [("description", VStr "Team lunch"); ("type", VStr "RECEIPT");
        ("payee", VObj [("id", VNum 4242); ("name", VStr "New profile")]);
        ("payoutMethod", bankAccount); ("currency", VStr "USD");
        ("payeeLocation",
          VObj [("address", VStr "1 Main Street"); ("country", VStr "BE")]);
        ("attachedFiles", VArr [VObj [("id", VStr "file-1");
                                      ("url", VStr "https://example.org/a.pdf");
                                      ("name", VStr "a.pdf")]]);
        ("items", VArr [lunch])].

Definition invoiceDraft : value :=
  VObj [("description", VStr "Consulting"); ("type", VStr "INVOICE");
        ("payee", VObj [("id", VStr "acc-3"); ("name", VStr "Individual")]);
        ("payoutMethod", bankAccount); ("currency", VStr "USD");
        ("payeeLocation",
          VObj [("address", VStr "1 Main Street"); ("country", VStr "BE")]);
        ("attachedFiles", VArr [VObj [("id", VStr "file-1");
                                      ("url", VStr "https://example.org/a.pdf");
                                      ("name", VStr "a.pdf")]]);
        ("items", VArr [lunch])].

(** The drafts of the validator's examples (spec 8): nothing filled in but
    the currency, as a receipt and as an invoice. *)
Definition emptyReceipt : value :=
  VObj [("description", VStr ""); ("payee", VNull); ("payoutMethod", VNull);
        ("currency", VStr "USD"); ("items", VArr []); ("type", VStr "RECEIPT")].

Definition emptyInvoice : value :=
  VObj [("description", VStr ""); ("payee", VNull); ("payoutMethod", VNull);
        ("currency", VStr "USD"); ("items", VArr []); ("type", VStr "INVOICE");
        ("payeeLocation", VObj [("country", VNull); ("address", VStr "")])].

(* ================================================================== *)
(** ** Handlers and effects of the components *)

Module Handlers.

(** What a handler asks of its surroundings: the calls to formik
    ([setFieldValue], [setValues], [setErrors]), to the state setter
    [setValidate] and to the [onSubmit] prop. *)
Inductive call : Type :=
| SetFieldValue (field : string) (v : value)
| SetValues (values : value)
| SetErrors (errors : value)
| SetValidate (v : value)
| OnSubmit (values : value).

(** A handler: the calls made so far, then a result or a raised
    [TypeError]. *)
Definition Eff (A : Type) : Type := (list call * M A)%type.

Definition eret {A} (a : A) : Eff A := ([], Some a).

Definition lift {A} (m : M A) : Eff A := ([], m).

Definition emit (c : call) : Eff unit := ([c], Some tt).

Definition ebind {A B} (c : Eff A) (k : A -> Eff B) : Eff B :=
  match c with
  | (calls, Some a) => let (calls', r) := k a in (calls ++ calls', r)
  | (calls, None) => (calls, None)
  end.

(** [a === b].  Two primitives are compared by value and a primitive never
    equals an object; which of two objects or arrays are the same one is not
    part of the embedding, which stops there. *)
Definition strict_eq (a b : value) : M bool :=
  match a, b with
  | VUndef, VUndef | VNull, VNull => ret true
  | VBool x, VBool y => ret (Bool.eqb x y)
  | VNum x, VNum y => ret (x =? y)%Z
  | VStr x, VStr y => ret (x =? y)
  | VArr _, VArr _ | VArr _, VObj _ | VObj _, VArr _ | VObj _, VObj _ => throw
  | _, _ => ret false
  end.

(** lodash [first(array)]: [array[0]] when [array.length] is truthy. *)
Definition first (array : value) : value :=
  match array with
  | VArr xs => hd VUndef xs
  | VStr s => match s with
              | EmptyString => VUndef
              | String c _ => VStr (String c EmptyString)
              end
  | VObj _ => if truthy (prop array "length") then prop array "0" else VUndef
  | _ => VUndef
  end.

End Handlers.
Import Handlers.

Notation "x <~ c ;; k" := (ebind c (fun x => k))
  (at level 61, c at next level, right associativity) : js_scope.
Notation "c ;;; k" := (ebind c (fun _ => k))
  (at level 61, right associativity) : js_scope.

(** [PayoutMethodType.BANK_ACCOUNT] of [lib/constants/payout-method], which is
    not among the sources. *)
Class PayoutMethodTypes : Type := {
  BANK_ACCOUNT : string
}.

(** *** components/CollectivePickerInviteMenu.js *)

Module InviteCollectiveForm.

(** The initial state of [React.useState]. *)
Definition initialValue : value :=
  VObj [("name", VStr ""); ("email", VStr ""); ("isInvite", VBool true)].

(** [setValueProp(prop)(e)] on the state [v]: [e.persist()], then the state
    becomes [{ ...v, [prop]: e.target?.value }]. *)
Definition setValueProp (prop_ : string) (e : value) (v : value) : M value :=
  target <- member e "target" ;;
  ret (VObj (assign (own v) [(prop_, opt_member target "value")])).

(** The state after a sequence of edits, each one a field and its event. *)
Fixpoint edits (es : list (string * value)) (v : value) : M value :=
  match es with
  | [] => ret v
  | (prop_, e) :: es' => v' <- setValueProp prop_ e v ;; edits es' v'
  end.

End InviteCollectiveForm.

(** *** components/expenses/ExpenseForm.js, the form and its body *)

Module ExpenseFormBody.
Section WithImports.
Context `{Imports} `{PayoutMethodTypes}.



Definition setLocationFromPayee (payee : value) : Eff unit :=
  location <~ lift (member payee "location") ;;
  country <~ lift (member location "country") ;;
  emit (SetFieldValue "payeeLocation.country" (or_else country VNull)) ;;;
  location <~ lift (member payee "location") ;;
  address <~ lift (member location "address") ;;
  emit (SetFieldValue "payeeLocation.address" (or_else address (VStr ""))).

Definition refreshPayoutProfile (values payoutProfiles : value) : Eff unit :=
  current <~ lift (member values "payee") ;;
  payee <~ lift
    (if truthy current then
       profiles <- as_array payoutProfiles ;;
       findM (fun profile => id <- member profile "id" ;;
                             strict_eq id (prop current "id"))
             profiles
     else ret (first payoutProfiles)) ;;
  emit (SetFieldValue "payee" payee).


(** [values.type && values.description]. *)
Definition hasBaseFormFieldsCompleted (values : value) : M value :=
  type <- member values "type" ;;
  if truthy type then member values "description" else ret type.

Definition stepOneCompleted (values : value) : M value :=
  member values "payoutMethod".

(** [stepOneCompleted && hasBaseFormFieldsCompleted &&
    values.items.length > 0]. *)
Definition stepTwoCompleted (values : value) : M value :=
  base <- hasBaseFormFieldsCompleted values ;;
  one <- stepOneCompleted values ;;
  let both := if truthy one then base else one in
  if truthy both then
    items <- member values "items" ;;
    len <- length_of items ;;
    nonEmpty <- gt_zero len ;;
    ret (VBool nonEmpty)
  else ret both.


(** The [disabled] prop of the submit button:
    [!stepTwoCompleted || !formik.isValid]. *)
Definition submitDisabled (values isValid : value) : M bool :=
  two <- stepTwoCompleted values ;;
  ret (negb (truthy two) || negb (truthy isValid)).

(** The effect that fills in the address from the payout profile. *)
Definition prefillAddressEffect (values : value) : Eff unit :=
  payeeLocation <~ lift (member values "payeeLocation") ;;
  if negb (truthy (opt_member payeeLocation "address")) then
    payee <~ lift (member values "payee") ;;
    if truthy (opt_member payee "location")
    then payee <~ lift (member values "payee") ;; setLocationFromPayee payee
    else eret tt
  else eret tt.

(** The [onChange] of the payee picker. *)
Definition payeeOnChange (option : value) : Eff unit :=
  v <~ lift (member option "value") ;;
  emit (SetFieldValue "payee" v) ;;;
  emit (SetFieldValue "payoutMethod" VNull) ;;;
  setLocationFromPayee v.

(** The effect that loads the values from the local storage.  [formPersister]
    is [None] when the prop is absent, and otherwise holds what its
    [loadValues()] returns. *)
Definition loadValuesEffect (shouldLoadValuesFromPersister : value)
           (formPersister : option value) (dirty : value) (collective : value)
  : Eff unit :=
  if truthy shouldLoadValuesFromPersister then
    match formPersister with
    | Some formValues =>
        if negb (truthy dirty) then
          if truthy formValues then
            payoutMethod <~ lift (member formValues "payoutMethod") ;;
            reset <~ lift
              (if strict_eq_str (opt_member payoutMethod "type") BANK_ACCOUNT
               then host <- member collective "host" ;;
                    ret (negb (truthy (opt_member host "transferwise")))
               else ret false) ;;
            emit (SetValues
                    (if reset
                     then VObj (set_field "payoutMethod" VUndef (own formValues))
                     else formValues))
          else eret tt
        else eret tt
    | None => eret tt
    end
  else eret tt.


End WithImports.
End ExpenseFormBody.

(** *** components/expenses/ExpenseFormPayeeSignUpStep.js, the step *)

Module ExpenseFormPayeeStep.
Section WithImports.
Context `{Imports}.

Definition refreshPayoutProfile (values payoutProfiles : value) : Eff unit :=
  current <~ lift (member values "payee") ;;
  payee <~ lift
    (if truthy current then
       profiles <- as_array payoutProfiles ;;
       findM (fun profile => id <- member profile "id" ;;
                             strict_eq id (prop current "id"))
             profiles
     else ret (first payoutProfiles)) ;;
  emit (SetFieldValue "payee" payee).

(** [isOnBehalf ? values.payee : values.type === expenseTypes.RECEIPT ?
    values.payoutMethod : values.payoutMethod &&
    values.payeeLocation?.country && values.payeeLocation?.address]. *)
Definition stepOneCompleted (isOnBehalf values : value) : M value :=
  if truthy isOnBehalf then member values "payee"
  else
    type <- member values "type" ;;
    payoutMethod <- member values "payoutMethod" ;;
    if strict_eq_str type RECEIPT then ret payoutMethod
    else if truthy payoutMethod then
      payeeLocation <- member values "payeeLocation" ;;
      let country := opt_member payeeLocation "country" in
      if truthy country then ret (opt_member payeeLocation "address")
      else ret country
    else ret payoutMethod.

End WithImports.
End ExpenseFormPayeeStep.

(** *** Vocabulary of the further statements *)

(** The drafts on which the submission reducer returns: an object (anything
    but [undefined] and [null]) whose [items] is an array without
    [undefined] or [null] entries and, for an invoice, whose [attachedFiles]
    is absent or an array. *)
Definition accepted `{Imports} (draft : value) : bool :=
  negb (nullish draft)
  && match prop draft "items" with
     | VArr xs => forallb (fun item => negb (nullish item)) xs
     | _ => false
     end
  && (if strict_eq_str (prop draft "type") INVOICE
      then match prop draft "attachedFiles" with
           | VUndef | VNull | VArr _ => true
           | _ => false
           end
      else true).

(** The names a payload, its payout method and its items may carry. *)
Definition payloadNames : list string :=
  scalarPaths
    ++ ["payee"; "payoutMethod"; "payeeLocation"; "attachedFiles"; "items"].

Definition payoutMethodNames : list string :=
  ["id"; "name"; "data"; "isSaved"; "type"].

Definition itemNames : list string :=
  ["id"; "url"; "description"; "incurredAt"; "amount"].


(** A validator of items that reports an error on every item without a
    description, and more sample data: two payout profiles and a persisted
    draft paid to a bank account. *)
Definition strictImports : Imports := {|
  INVOICE := "INVOICE";
  RECEIPT := "RECEIPT";
  FUNDING_REQUEST := "FUNDING_REQUEST";
  ACCOUNT_BALANCE := "ACCOUNT_BALANCE";
  CollectiveFamilyTypes := ["COLLECTIVE"; "FUND"; "EVENT"; "PROJECT"];
  AccountTypesWithHost := ["COLLECTIVE"; "EVENT"; "FUND"; "PROJECT"];
  validateExpenseItem := fun _ item =>
    if truthy (prop item "description") then VObj []
    else VObj [("description", FormUtils.FORM_FIELD_REQUIRED)];
  validatePayoutMethod := fun pm =>
    if truthy (prop pm "data") then VObj []
    else VObj [("data", FormUtils.FORM_FIELD_REQUIRED)]
|}.

Definition samplePayoutMethodTypes : PayoutMethodTypes := {|
  BANK_ACCOUNT := "BANK_ACCOUNT"
|}.

Definition profileA : value :=
  VObj [("id", VStr "acc-3"); ("name", VStr "Individual");
        ("location",
          VObj [("address", VStr "1 Main Street"); ("country", VStr "BE")])].

Definition profileB : value :=
  VObj [("id", VStr "acc-4"); ("name", VStr "Company")].

Definition untitledItem : value :=
  VObj [("id", VStr "item-2"); ("amount", VNum 300)].

(* ================================================================== *)
(** ** Values, arrays and objects *)

Lemma opt_member_prop (v : value) (k : string) : opt_member v k = prop v k.
Proof. destruct v; reflexivity. Qed.

Lemma truthy_prop_object (v : value) (k : string) :
  truthy (prop v k) = true -> exists fs, v = VObj fs.
Proof. destruct v; simpl; try discriminate. eauto. Qed.

Lemma strict_eq_str_true (v : value) (s : string) :
  strict_eq_str v s = true <-> v = VStr s.
Proof.
  destruct v; simpl; split; try discriminate.
  - intros E. apply String.eqb_eq in E. now subst.
  - intros E. inversion E. apply String.eqb_refl.
Qed.

Lemma includes_object (l : list string) (v : value) :
  includes l (prop v "type") = true -> truthy v = true.
Proof.
  unfold includes. intros E. apply existsb_exists in E as (s & _ & E).
  apply strict_eq_str_true in E.
  destruct v; simpl in *; try discriminate. reflexivity.
Qed.

Lemma filterM_total (f : value -> M bool) (g : value -> bool) (xs : list value) :
  Forall (fun x => f x = Some (g x)) xs ->
  filterM f xs = Some (filter g xs).
Proof.
  induction 1 as [|x xs Hx _ IH]; simpl; [reflexivity|].
  rewrite Hx, IH. simpl. reflexivity.
Qed.

Lemma filterM_defined (f : value -> M bool) (xs r : list value) :
  filterM f xs = Some r -> Forall (fun x => f x <> None) xs.
Proof.
  revert r. induction xs as [|x xs IH]; simpl; intros r E; [constructor|].
  destruct (f x) eqn:Ef; simpl in E; [|discriminate].
  destruct (filterM f xs) eqn:Er; simpl in E; [|discriminate].
  constructor; [congruence | eauto].
Qed.

Lemma findM_total (f : value -> M bool) (g : value -> bool) (xs : list value) :
  Forall (fun x => f x = Some (g x)) xs ->
  findM f xs = Some (match find g xs with Some x => x | None => VUndef end).
Proof.
  induction 1 as [|x xs Hx _ IH]; simpl; [reflexivity|].
  rewrite Hx. simpl. destruct (g x); [reflexivity | exact IH].
Qed.

Lemma find_truthy (g : value -> bool) (xs : list value) :
  Forall (fun x => truthy x = true) xs ->
  truthy (match find g xs with Some x => x | None => VUndef end) = existsb g xs.
Proof.
  induction 1 as [|x xs Hx _ IH]; simpl; [reflexivity|].
  destruct (g x); simpl; [exact Hx | exact IH].
Qed.

Lemma nonempty_or_EMPTY (xs : list value) :
  (if (0 <? List.length xs)%nat then xs else []) = xs.
Proof. destruct xs; reflexivity. Qed.

Lemma member_defined (v : value) (k : string) :
  nullish v = false -> member v k = Some (prop v k).
Proof. unfold member. now intros ->. Qed.

Lemma mapM_total (f : value -> M value) (g : value -> value) (xs : list value) :
  Forall (fun x => f x = Some (g x)) xs ->
  mapM f xs = Some (map g xs).
Proof.
  induction 1 as [|x xs Hx _ IH]; simpl; [reflexivity|].
  rewrite Hx, IH. reflexivity.
Qed.

Lemma lookup_app (k : string) (fs gs : fields) :
  lookup k (fs ++ gs)
  = match lookup k fs with Some v => Some v | None => lookup k gs end.
Proof.
  induction fs as [|[k' v] fs IH]; simpl; [reflexivity|].
  destruct (k' =? k); [reflexivity | exact IH].
Qed.

Lemma set_field_fresh (k : string) (v : value) (fs : fields) :
  lookup k fs = None -> set_field k v fs = fs ++ [(k, v)].
Proof.
  induction fs as [|[k' v'] fs IH]; simpl; [reflexivity|].
  destruct (k' =? k); [discriminate|]. intros E. now rewrite IH.
Qed.

(** Writing properties that are new and distinct appends them. *)
Lemma assign_fresh (es fs : fields) :
  distinct (map fst es) = true ->
  (forall k, mem k (map fst es) = true -> lookup k fs = None) ->
  assign fs es = fs ++ es.
Proof.
  unfold assign. revert fs.
  induction es as [|[k v] es IH]; intros fs D F; simpl.
  - now rewrite app_nil_r.
  - simpl in D. apply andb_true_iff in D as [Dk D].
    rewrite set_field_fresh.
    + rewrite IH; [now rewrite <- app_assoc | exact D |].
      intros k' Hk'. rewrite lookup_app, F.
      * simpl. destruct (k =? k') eqn:E; [|reflexivity].
        apply String.eqb_eq in E. subst k'.
        unfold mem in Dk, Hk'. now rewrite Hk' in Dk.
      * unfold mem in *. simpl. rewrite Hk'. apply orb_true_r.
    + apply F. unfold mem. simpl. now rewrite String.eqb_refl.
Qed.

Lemma lookup_pick_list (object : value) (ks : list string) (k : string) :
  lookup k (pick_list object ks)
  = if mem k ks && Lodash.hasIn object k
    then Some (Lodash.get object k) else None.
Proof.
  unfold pick_list, mem.
  induction ks as [|a ks IH]; simpl; [reflexivity|].
  rewrite lookup_app, IH. clear IH.
  destruct (k =? a) eqn:E.
  - apply String.eqb_eq in E. subst a.
    destruct (Lodash.hasIn object k); simpl.
    + now rewrite String.eqb_refl.
    + now rewrite andb_false_r.
  - assert (E' : (a =? k) = false) by now rewrite String.eqb_sym.
    destruct (Lodash.hasIn object a); simpl; [rewrite E'|]; reflexivity.
Qed.

(** [pick] with distinct paths lists the properties in the order of the
    paths. *)
Lemma pick_distinct (object : value) (ks : list string) :
  distinct ks = true -> Lodash.pick object ks = VObj (pick_list object ks).
Proof.
  intros D. unfold Lodash.pick. f_equal.
  enough (G : forall acc,
             (forall k, mem k ks = true -> lookup k acc = None) ->
             fold_left
               (fun acc k =>
                  if Lodash.hasIn object k
                  then set_field k (Lodash.get object k) acc else acc)
               ks acc
             = acc ++ pick_list object ks)
    by (now apply (G [])).
  induction ks as [|a ks IH]; intros acc F; simpl.
  - now rewrite app_nil_r.
  - simpl in D. apply andb_true_iff in D as [Da D].
    assert (Fa : lookup a acc = None).
    { apply F. unfold mem. simpl. now rewrite String.eqb_refl. }
    assert (Fk : forall k, mem k ks = true -> lookup k acc = None).
    { intros k Hk. apply F. unfold mem in *. simpl. rewrite Hk.
      apply orb_true_r. }
    destruct (Lodash.hasIn object a).
    + rewrite (set_field_fresh _ _ _ Fa), (IH D).
      * now rewrite <- app_assoc.
      * intros k Hk. rewrite lookup_app, (Fk k Hk). simpl.
        destruct (a =? k) eqn:E; [|reflexivity].
        apply String.eqb_eq in E. subst k. now rewrite Hk in Da.
    + simpl. now apply IH.
Qed.

(** Two values with the same listed properties give the same [pick_list]. *)
Lemma pick_list_agree (o o' : value) (ks : list string) :
  (forall k, In k ks ->
             Lodash.hasIn o' k = Lodash.hasIn o k
             /\ (Lodash.hasIn o k = true -> Lodash.get o' k = Lodash.get o k)) ->
  pick_list o' ks = pick_list o ks.
Proof.
  unfold pick_list. induction ks as [|a ks IH]; intros A; simpl; [reflexivity|].
  destruct (A a (or_introl eq_refl)) as [Eh Eg].
  rewrite Eh, IH by (intros k Hk; apply A; now right).
  destruct (Lodash.hasIn o a); [now rewrite Eg | reflexivity].
Qed.

Lemma mem_In (k : string) (ks : list string) : In k ks -> mem k ks = true.
Proof.
  intros Hin. unfold mem. apply existsb_exists.
  exists k. split; [exact Hin | apply String.eqb_refl].
Qed.

Lemma hasIn_pick_list (object : value) (ks : list string) (k : string) :
  Lodash.hasIn (VObj (pick_list object ks)) k = mem k ks && Lodash.hasIn object k.
Proof.
  unfold Lodash.hasIn at 1, has. rewrite lookup_pick_list.
  now destruct (mem k ks && Lodash.hasIn object k).
Qed.

Lemma get_pick_list (object : value) (ks : list string) (k : string) :
  Lodash.get (VObj (pick_list object ks)) k
  = if mem k ks && Lodash.hasIn object k then Lodash.get object k else VUndef.
Proof.
  unfold Lodash.get at 1, prop. rewrite lookup_pick_list.
  now destruct (mem k ks && Lodash.hasIn object k).
Qed.

(** Picking the same properties again changes nothing. *)
Lemma pick_list_idempotent (object : value) (ks : list string) :
  pick_list (VObj (pick_list object ks)) ks = pick_list object ks.
Proof.
  apply pick_list_agree. intros k Hin.
  rewrite hasIn_pick_list, get_pick_list, (mem_In _ _ Hin). simpl.
  split; [reflexivity | now intros ->].
Qed.

Lemma pick_idempotent (object : value) (ks : list string) :
  distinct ks = true ->
  Lodash.pick (Lodash.pick object ks) ks = Lodash.pick object ks.
Proof.
  intros D. rewrite (pick_distinct object ks D), (pick_distinct _ ks D).
  now rewrite pick_list_idempotent.
Qed.

(* ================================================================== *)
(** ** The payout method eligibility filter *)

Section Eligibility.
Context `{Imports}.

Lemma saved_are_objects (xs : list value) :
  Forall (fun pm => nullish pm = false /\ truthy pm = true) (filter isSaved xs).
Proof.
  apply Forall_forall. intros pm Hin. apply filter_In in Hin as [_ Hs].
  apply truthy_prop_object in Hs as [fs ->]. split; reflexivity.
Qed.

Lemma basePms_array (payee : value) :
  wf_payee payee = true ->
  as_array (or_else (Lodash.get payee "payoutMethods") (VArr [])) =
    Some (payoutMethodsOf payee)
  /\ Forall (fun pm => nullish pm = false) (payoutMethodsOf payee).
Proof.
  unfold wf_payee, or_else, Lodash.get, payoutMethodsOf.
  destruct (truthy (prop payee "payoutMethods")) eqn:T.
  - destruct (prop payee "payoutMethods"); try discriminate.
    intros W. split; [reflexivity|].
    apply Forall_forall. intros pm Hin.
    rewrite forallb_forall in W. apply W in Hin.
    now destruct (nullish pm).
  - intros _. destruct (prop payee "payoutMethods"); simpl in *;
      try discriminate; split; auto.
Qed.

Lemma isSaved_callback (xs : list value) :
  Forall (fun pm => nullish pm = false) xs ->
  Forall (fun pm => (isSaved <- member pm "isSaved" ;; ret (truthy isSaved))
                    = Some (isSaved pm)) xs.
Proof.
  apply Forall_impl. intros pm N. now rewrite (member_defined _ _ N).
Qed.

Lemma type_callback (xs : list value) :
  Forall (fun pm => nullish pm = false) xs ->
  Forall (fun pm => (type <- member pm "type" ;;
                     ret (strict_eq_str type ACCOUNT_BALANCE))
                    = Some (isAccountBalance pm)) xs.
Proof.
  apply Forall_impl. intros pm N. now rewrite (member_defined _ _ N).
Qed.

Lemma newAccountBalance_not_nullish :
  nullish (newAccountBalance ACCOUNT_BALANCE) = false.
Proof. reflexivity. Qed.

(** The body shared by the two copies, on an accepted payee. *)
Lemma filter_steps (family : list string) (payee : value) :
  wf_payee payee = true ->
  (basePms <- as_array (or_else (Lodash.get payee "payoutMethods") (VArr [])) ;;
   filteredPms <- filterM (fun pm => isSaved <- member pm "isSaved" ;;
                                     ret (truthy isSaved)) basePms ;;
   filteredPms <-
     (if truthy (opt_member payee "isActive") then
        found <- findM (fun pm => type <- member pm "type" ;;
                                  ret (strict_eq_str type ACCOUNT_BALANCE))
                       filteredPms ;;
        ret (if negb (truthy found)
             then newAccountBalance ACCOUNT_BALANCE :: filteredPms
             else filteredPms)
      else ret filteredPms) ;;
   filteredPms <-
     (if truthy payee && includes family (prop payee "type") then
        filterM (fun pm => type <- member pm "type" ;;
                           ret (strict_eq_str type ACCOUNT_BALANCE))
                filteredPms
      else ret filteredPms) ;;
   ret (if (0 <? List.length filteredPms)%nat then filteredPms else []))
  = Some (eligible family payee).
Proof.
  intros W. destruct (basePms_array payee W) as [E F].
  rewrite E. cbn [bind].
  rewrite (filterM_total _ isSaved _ (isSaved_callback _ F)). cbn [bind].
  fold (savedMethods payee).
  assert (S : Forall (fun pm => nullish pm = false /\ truthy pm = true)
                (savedMethods payee)) by apply saved_are_objects.
  assert (SN : Forall (fun pm => nullish pm = false) (savedMethods payee)).
  { revert S. apply Forall_impl. tauto. }
  assert (ST : Forall (fun pm => truthy pm = true) (savedMethods payee)).
  { revert S. apply Forall_impl. tauto. }
  rewrite opt_member_prop. unfold eligible.
  assert (G : truthy payee && includes family (prop payee "type")
              = includes family (prop payee "type")).
  { destruct (includes family (prop payee "type")) eqn:I.
    - now rewrite (includes_object _ _ I).
    - apply andb_false_r. }
  rewrite G. clear G.
  destruct (truthy (prop payee "isActive")); cbn [andb bind].
  - rewrite (findM_total _ isAccountBalance _ (type_callback _ SN)). cbn [bind].
    rewrite (find_truthy _ _ ST).
    destruct (existsb isAccountBalance (savedMethods payee)); cbn [negb ret bind];
      destruct (includes family (prop payee "type")); cbn [bind ret].
    + rewrite (filterM_total _ isAccountBalance _ (type_callback _ SN)).
      cbn [bind ret]. now rewrite nonempty_or_EMPTY.
    + now rewrite nonempty_or_EMPTY.
    + rewrite (filterM_total _ isAccountBalance
                 (newAccountBalance ACCOUNT_BALANCE :: savedMethods payee)).
      * cbn [bind ret]. now rewrite nonempty_or_EMPTY.
      * apply type_callback. constructor; [reflexivity | exact SN].
    + now rewrite nonempty_or_EMPTY.
  - unfold ret at 1. cbn [bind].
    destruct (includes family (prop payee "type")); cbn [bind ret].
    + rewrite (filterM_total _ isAccountBalance _ (type_callback _ SN)).
      cbn [bind ret]. now rewrite nonempty_or_EMPTY.
    + now rewrite nonempty_or_EMPTY.
Qed.

Lemma ExpenseForm_eligible (payee : value) :
  wf_payee payee = true ->
  ExpenseForm.getPayoutMethodsFromPayee payee
  = Some (eligible CollectiveFamilyTypes payee).
Proof. exact (filter_steps CollectiveFamilyTypes payee). Qed.

Lemma SignUpStep_eligible (payee : value) :
  wf_payee payee = true ->
  ExpenseFormPayeeSignUpStep.getPayoutMethodsFromPayee payee
  = Some (eligible AccountTypesWithHost payee).
Proof. exact (filter_steps AccountTypesWithHost payee). Qed.

Lemma copies_eligible (family : list string) (f : value -> M (list value))
      (payee : value) :
  In (family, f) copies -> wf_payee payee = true ->
  f payee = Some (eligible family payee).
Proof.
  intros [E|[E|[]]] W; inversion E; subst.
  - now apply ExpenseForm_eligible.
  - now apply SignUpStep_eligible.
Qed.

(** [wf_payee] is exactly the domain on which the filter returns. *)
Lemma copies_defined (family : list string) (f : value -> M (list value))
      (payee : value) (r : list value) :
  In (family, f) copies -> f payee = Some r -> wf_payee payee = true.
Proof.
  intros [E|[E|[]]]; inversion E; subst; clear E;
    unfold ExpenseForm.getPayoutMethodsFromPayee,
      ExpenseFormPayeeSignUpStep.getPayoutMethodsFromPayee,
      wf_payee, or_else, Lodash.get; intros E;
    (destruct (truthy (prop payee "payoutMethods")); [|reflexivity]);
    (destruct (prop payee "payoutMethods"); try discriminate E);
    cbn [as_array bind ret] in E;
    match type of E with
    | context [filterM ?g ?l] => destruct (filterM g l) eqn:Fm; [|discriminate E]
    end;
    apply filterM_defined in Fm; rewrite Forall_forall in Fm;
    apply forallb_forall; intros pm Hin; specialize (Fm pm Hin);
    destruct pm; simpl in *; congruence.
Qed.

Lemma filter_none (g : value -> bool) (xs : list value) :
  existsb g xs = false -> filter g xs = [].
Proof.
  induction xs as [|x xs IH]; simpl; [reflexivity|].
  destruct (g x); simpl; [discriminate | exact IH].
Qed.

Lemma isAccountBalance_type (pm : value) :
  isAccountBalance pm = true <-> prop pm "type" = VStr ACCOUNT_BALANCE.
Proof. apply strict_eq_str_true. Qed.

Lemma includes_ext (l l' : list string) (v : value) :
  (forall s, In s l <-> In s l') -> includes l v = includes l' v.
Proof.
  intros E. unfold includes.
  destruct (existsb (strict_eq_str v) l') eqn:R.
  - apply existsb_exists in R as (s & Hin & Hs).
    apply existsb_exists. exists s. split; [now apply E | exact Hs].
  - destruct (existsb (strict_eq_str v) l) eqn:L; [|reflexivity].
    apply existsb_exists in L as (s & Hin & Hs).
    rewrite <- R. symmetry. apply existsb_exists.
    exists s. split; [now apply E | exact Hs].
Qed.

End Eligibility.

(* ================================================================== *)
(** ** Claims on the eligibility filter *)

(** C1. For a payee whose type is in the collective family, each copy of
    [getPayoutMethodsFromPayee] returns, and what it returns holds account
    balance entries only, whatever [isActive] is and whether or not the new
    account balance was put in front. *)
Theorem family_only_account_balance `{Imports}
        (family : list string) (f : value -> M (list value)) (payee : value) :
  In (family, f) copies ->
  wf_payee payee = true ->
  includes family (prop payee "type") = true ->
  exists pms, f payee = Some pms /\ onlyAccountBalance pms.
Proof.
  intros C W I. exists (eligible family payee).
  split; [now apply copies_eligible|].
  unfold eligible. rewrite I.
  apply Forall_forall. intros pm Hin.
  apply filter_In in Hin as [_ Hab]. now apply isAccountBalance_type.
Qed.

Lemma family_only_account_balance_witness :
  exists pms,
    @ExpenseForm.getPayoutMethodsFromPayee sampleImports activeCollective
    = Some pms /\ @onlyAccountBalance sampleImports pms.
Proof.
  apply (@family_only_account_balance sampleImports
           (@CollectiveFamilyTypes sampleImports)
           (@ExpenseForm.getPayoutMethodsFromPayee sampleImports)
           activeCollective).
  - left. reflexivity.
  - reflexivity.
  - reflexivity.
Defined.

(** C2, as stated, fails: an active collective with one saved bank account
    and no saved account balance gets the new account balance alone, not the
    new account balance in front of its saved methods. *)
Lemma active_collective_loses_saved_methods :
  truthy (prop activeCollective "isActive") = true
  /\ existsb (@isAccountBalance sampleImports) (savedMethods activeCollective)
     = false
  /\ @ExpenseForm.getPayoutMethodsFromPayee sampleImports activeCollective
     = Some [newAccountBalance "ACCOUNT_BALANCE"]
  /\ @ExpenseForm.getPayoutMethodsFromPayee sampleImports activeCollective
     <> Some (newAccountBalance "ACCOUNT_BALANCE" :: savedMethods activeCollective).
Proof.
  repeat split; try reflexivity. vm_compute. discriminate.
Qed.

(** C2, amended.  For an active payee without a saved account balance the
    result is the new account balance in front of the saved methods when the
    payee's type is outside the collective family, and the new account balance
    alone when it is inside.  With a saved account balance nothing is put in
    front: the result is the saved methods, restricted to account balances
    for a payee of the family. *)
Theorem active_payee_account_balance `{Imports}
        (family : list string) (f : value -> M (list value)) (payee : value) :
  In (family, f) copies ->
  wf_payee payee = true ->
  truthy (prop payee "isActive") = true ->
  let saved := savedMethods payee in
  let new := newAccountBalance ACCOUNT_BALANCE in
  (existsb isAccountBalance saved = false ->
   f payee = Some (if includes family (prop payee "type")
                   then [new] else new :: saved))
  /\ (existsb isAccountBalance saved = true ->
      f payee = Some (if includes family (prop payee "type")
                      then filter isAccountBalance saved else saved)).
Proof.
  intros C W A saved new.
  rewrite (copies_eligible _ _ _ C W). unfold eligible.
  fold saved. fold new. rewrite A.
  split; intros E; rewrite E; cbn [andb negb];
    destruct (includes family (prop payee "type")); try reflexivity.
  cbn [filter]. rewrite (filter_none _ _ E).
  replace (isAccountBalance new) with true; [reflexivity|].
  symmetry. apply isAccountBalance_type. reflexivity.
Qed.

Lemma active_payee_account_balance_witness :
  @ExpenseForm.getPayoutMethodsFromPayee sampleImports activeHost
  = Some [newAccountBalance "ACCOUNT_BALANCE"; bankAccount].
Proof.
  apply (@active_payee_account_balance sampleImports
           (@CollectiveFamilyTypes sampleImports)
           (@ExpenseForm.getPayoutMethodsFromPayee sampleImports)
           activeHost); [left| | |]; reflexivity.
Defined.

(** C3. For a payee that is not active and whose type is outside the
    collective family, each copy returns exactly the saved payout methods:
    the entries of [payee.payoutMethods] with [isSaved], in the original
    order, each one unchanged. *)
Theorem inactive_payee_saved_methods `{Imports}
        (family : list string) (f : value -> M (list value)) (payee : value) :
  In (family, f) copies ->
  wf_payee payee = true ->
  truthy (prop payee "isActive") = false ->
  includes family (prop payee "type") = false ->
  f payee = Some (filter isSaved (payoutMethodsOf payee)).
Proof.
  intros C W A I. rewrite (copies_eligible _ _ _ C W).
  unfold eligible. now rewrite A, I.
Qed.

Lemma inactive_payee_saved_methods_witness :
  @ExpenseFormPayeeSignUpStep.getPayoutMethodsFromPayee sampleImports individual
  = Some [bankAccount; savedBalance].
Proof.
  apply (@inactive_payee_saved_methods sampleImports
           (@AccountTypesWithHost sampleImports)
           (@ExpenseFormPayeeSignUpStep.getPayoutMethodsFromPayee sampleImports)
           individual); [right; left| | |]; reflexivity.
Defined.

(** C9. On an [undefined] or [null] payee each copy returns the empty
    sequence, and raises nothing. *)
Theorem absent_payee_empty `{Imports} :
  ExpenseForm.getPayoutMethodsFromPayee VUndef = Some []
  /\ ExpenseForm.getPayoutMethodsFromPayee VNull = Some []
  /\ ExpenseFormPayeeSignUpStep.getPayoutMethodsFromPayee VUndef = Some []
  /\ ExpenseFormPayeeSignUpStep.getPayoutMethodsFromPayee VNull = Some [].
Proof. repeat split. Qed.

(** C10. When [AccountTypesWithHost] and [CollectiveFamilyTypes] hold the
    same account types, the copy of [ExpenseFormPayeeSignUpStep] and the copy
    of [ExpenseForm] return the same on every payee, a raised [TypeError]
    included. *)
Theorem copies_agree `{Imports} :
  (forall s, In s AccountTypesWithHost <-> In s CollectiveFamilyTypes) ->
  forall payee,
    ExpenseFormPayeeSignUpStep.getPayoutMethodsFromPayee payee
    = ExpenseForm.getPayoutMethodsFromPayee payee.
Proof.
  intros E payee.
  unfold ExpenseFormPayeeSignUpStep.getPayoutMethodsFromPayee,
    ExpenseForm.getPayoutMethodsFromPayee.
  now rewrite (includes_ext _ _ (prop payee "type") E).
Qed.

Lemma copies_agree_witness :
  (forall s, In s (@AccountTypesWithHost sampleImports)
             <-> In s (@CollectiveFamilyTypes sampleImports))
  /\ @ExpenseFormPayeeSignUpStep.getPayoutMethodsFromPayee sampleImports
       activeCollective
     = @ExpenseForm.getPayoutMethodsFromPayee sampleImports activeCollective.
Proof.
  assert (E : forall s, In s (@AccountTypesWithHost sampleImports)
                        <-> In s (@CollectiveFamilyTypes sampleImports))
    by (intros s; simpl; tauto).
  split; [exact E | exact (@copies_agree sampleImports E activeCollective)].
Defined.

(* ================================================================== *)
(** ** The submission reducer *)

Section Submission.
Context `{Imports}.

Lemma itemPaths_distinct (isNew isInvoice isFundingRequest : bool) :
  distinct (ExpenseForm.itemPaths isNew isInvoice isFundingRequest) = true.
Proof. now destruct isNew, isInvoice, isFundingRequest. Qed.

Lemma prepareItem_defined (isInvoice isFundingRequest : bool) (type : value)
      (xs : list value) :
  isInvoice = strict_eq_str type INVOICE ->
  isFundingRequest = strict_eq_str type FUNDING_REQUEST ->
  forallb (fun item => negb (nullish item)) xs = true ->
  Forall (fun item => ExpenseForm.prepareItem isInvoice isFundingRequest item
                      = Some (submittedItem type item)) xs.
Proof.
  intros -> -> W. apply Forall_forall. intros item Hin.
  rewrite forallb_forall in W. apply W in Hin.
  unfold ExpenseForm.prepareItem.
  rewrite member_defined by (now destruct (nullish item)).
  reflexivity.
Qed.

Lemma wf_draft_object (draft : value) :
  wf_draft draft = true -> exists fs, draft = VObj fs.
Proof.
  unfold wf_draft. intros W.
  apply andb_true_iff in W as [W _]. apply andb_true_iff in W as [_ W].
  destruct draft; simpl in W; try discriminate. eauto.
Qed.

(** On an accepted draft the reducer returns, and returns [payload]. *)
Lemma prepare_payload (draft : value) :
  wf_draft draft = true ->
  ExpenseForm.prepareExpenseForSubmit draft = Some (payload draft).
Proof.
  intros W. destruct (wf_draft_object _ W) as [fs ->].
  unfold wf_draft in W.
  apply andb_true_iff in W as [W Wf]. apply andb_true_iff in W as [_ Wi].
  unfold ExpenseForm.prepareExpenseForSubmit, payload, payloadWith,
    payloadEntries, itemsOf.
  rewrite !member_defined by reflexivity. cbn [bind].
  set (d := VObj fs) in *.
  assert (F : forall k, mem k ["payee"; "payoutMethod"; "payeeLocation";
                               "attachedFiles"; "items"] = true ->
                        lookup k (pick_list d scalarPaths) = None).
  { intros k Hk. rewrite lookup_pick_list.
    unfold mem in Hk. cbn [existsb] in Hk.
    repeat (apply orb_true_iff in Hk as [Hk|Hk];
            [apply String.eqb_eq in Hk; subst k; reflexivity|]).
    discriminate Hk. }
  destruct (prop d "items") as [| | | | |xs|] eqn:Ei; try discriminate Wi.
  pose proof (prepareItem_defined _ _ (prop d "type") xs eq_refl eq_refl Wi) as P.
  apply mapM_total in P.
  destruct (strict_eq_str (prop d "type") INVOICE);
    [destruct (prop d "attachedFiles"); try discriminate Wf|];
    cbn [nullish as_array bind ret]; rewrite P; cbn [bind ret];
    rewrite (pick_distinct d) by reflexivity; cbn [own];
    rewrite assign_fresh by (reflexivity || exact F); reflexivity.
Qed.

(** Reading the payload. *)
Lemma payloadWith_entry (payee draft : value) (k : string) :
  mem k scalarPaths = false ->
  prop (payloadWith payee draft) k = prop (VObj (payloadEntries payee draft)) k.
Proof.
  intros E. unfold payloadWith, prop.
  now rewrite lookup_app, lookup_pick_list, E.
Qed.

Lemma not_hasIn_prop (object : value) (k : string) :
  Lodash.hasIn object k = false -> prop object k = VUndef.
Proof.
  destruct object; try reflexivity. unfold Lodash.hasIn, has, prop.
  now destruct (lookup k fields0).
Qed.

Lemma payloadWith_scalar (payee draft : value) (k : string) :
  In k scalarPaths ->
  Lodash.hasIn (payloadWith payee draft) k = Lodash.hasIn draft k
  /\ prop (payloadWith payee draft) k = prop draft k.
Proof.
  intros Hin. unfold payloadWith, Lodash.hasIn at 1, has, prop at 1.
  rewrite lookup_app, lookup_pick_list, (mem_In _ _ Hin). cbn [andb].
  destruct (Lodash.hasIn draft k) eqn:E; [now split|].
  rewrite (not_hasIn_prop _ _ E). simpl in Hin.
  repeat (destruct Hin as [<-|Hin]; [now split|]). destruct Hin.
Qed.

Lemma submittedItem_idempotent (type item : value) :
  submittedItem type (submittedItem type item) = submittedItem type item.
Proof.
  unfold submittedItem.
  set (i := strict_eq_str type INVOICE).
  set (f := strict_eq_str type FUNDING_REQUEST).
  set (n := truthy (prop item "__isNew")).
  rewrite (pick_distinct item) by apply itemPaths_distinct.
  rewrite pick_distinct by apply itemPaths_distinct.
  f_equal.
  assert (N : truthy (prop (VObj (pick_list item (ExpenseForm.itemPaths n i f)))
                        "__isNew") = false).
  { change (prop ?o ?k) with (Lodash.get o k). rewrite get_pick_list.
    now destruct n, i, f. }
  rewrite N. destruct n; [|apply pick_list_idempotent].
  replace (ExpenseForm.itemPaths false i f)
    with ("id" :: ExpenseForm.itemPaths true i f) by reflexivity.
  unfold pick_list at 1. cbn [flat_map]. fold (pick_list
    (VObj (pick_list item (ExpenseForm.itemPaths true i f)))
    (ExpenseForm.itemPaths true i f)).
  rewrite pick_list_idempotent, hasIn_pick_list.
  now destruct i, f.
Qed.

Lemma submittedFile_idempotent (file : value) :
  submittedFile (submittedFile file) = submittedFile file.
Proof. now apply pick_idempotent. Qed.

Lemma map_idempotent (g : value -> value) (xs : list value) :
  (forall x, g (g x) = g x) -> map g (map g xs) = map g xs.
Proof. intros E. rewrite map_map. apply map_ext. intros x. apply E. Qed.

Lemma payloadWith_wf (payee draft : value) :
  wf_draft (payloadWith payee draft) = true.
Proof.
  unfold wf_draft. rewrite !payloadWith_entry by reflexivity.
  apply andb_true_iff. split.
  - cbn. apply forallb_forall. intros item Hin.
    apply in_map_iff in Hin as (x & <- & _). reflexivity.
  - cbn. destruct (strict_eq_str (prop draft "type") INVOICE); [|reflexivity].
    now destruct (prop draft "attachedFiles").
Qed.

(** The reducer applied to its own result: everything is as before, the
    payee reference apart, which is referenced once more. *)
Lemma payload_payload (draft : value) :
  payload (payload draft)
  = payloadWith
      (ExpenseForm.payeeReference
         (ExpenseForm.payeeReference (prop draft "payee")))
      draft.
Proof.
  unfold payload.
  set (r := ExpenseForm.payeeReference (prop draft "payee")).
  set (p := payloadWith r draft).
  assert (T : prop p "type" = prop draft "type").
  { apply payloadWith_scalar. simpl. tauto. }
  assert (A : pick_list p scalarPaths = pick_list draft scalarPaths).
  { apply pick_list_agree. intros k Hin.
    destruct (payloadWith_scalar r draft k Hin) as [Eh Eg].
    split; [exact Eh | intros _; exact Eg]. }
  unfold payloadWith at 1. rewrite A. unfold payloadWith. f_equal. f_equal.
  unfold payloadEntries at 1. unfold itemsOf. rewrite T.
  unfold p. rewrite !payloadWith_entry by reflexivity.
  unfold payloadEntries.
  cbn [prop lookup String.eqb Ascii.eqb Bool.eqb].
  f_equal. f_equal; [now rewrite pick_idempotent|]. f_equal.
  { destruct (strict_eq_str (prop draft "type") INVOICE); [|reflexivity].
    now rewrite pick_idempotent. }
  f_equal.
  { destruct (strict_eq_str (prop draft "type") INVOICE); [|reflexivity].
    destruct (prop draft "attachedFiles"); try reflexivity.
    now rewrite (map_idempotent _ _ submittedFile_idempotent). }
  unfold itemsOf.
  now rewrite (map_idempotent _ _ (submittedItem_idempotent _)).
Qed.

Lemma payeeReference_truthy (payee : value) :
  truthy payee = true ->
  let id := prop payee "id" in
  (typeof id = "string" ->
   ExpenseForm.payeeReference payee = VObj [("id", id)])
  /\ (typeof id <> "string" ->
      ExpenseForm.payeeReference payee = VObj [("legacyId", id)]).
Proof.
  intros T id. unfold ExpenseForm.payeeReference.
  rewrite T, opt_member_prop. fold id. split; intros E.
  - now rewrite E.
  - destruct (typeof id =? "string") eqn:S; [|reflexivity].
    apply String.eqb_eq in S. contradiction.
Qed.

Lemma payeeReference_twice (payee : value) :
  let id := prop payee "id" in
  let twice := ExpenseForm.payeeReference (ExpenseForm.payeeReference payee) in
  (truthy payee = false \/ typeof id = "string" \/ id = VUndef ->
   twice = ExpenseForm.payeeReference payee)
  /\ (truthy payee = true -> typeof id <> "string" ->
      twice = VObj [("legacyId", VUndef)]).
Proof.
  intros id twice. subst twice.
  destruct (truthy payee) eqn:T.
  - destruct (payeeReference_truthy payee T) as [S L]. fold id in S, L.
    split.
    + intros [E|[E|E]]; [discriminate| |].
      * rewrite (S E). unfold ExpenseForm.payeeReference. cbn.
        now rewrite E.
      * rewrite L by (rewrite E; discriminate). now rewrite E.
    + intros _ E. now rewrite (L E).
  - split; [|discriminate]. intros _.
    unfold ExpenseForm.payeeReference at 2. now rewrite T.
Qed.

Lemma hasIn_pick (object : value) (ks : list string) (k : string) :
  distinct ks = true ->
  Lodash.hasIn (Lodash.pick object ks) k = mem k ks && Lodash.hasIn object k.
Proof. intros D. rewrite (pick_distinct _ _ D). apply hasIn_pick_list. Qed.

Lemma prop_pick (object : value) (ks : list string) (k : string) :
  distinct ks = true -> mem k ks = true ->
  prop (Lodash.pick object ks) k = prop object k.
Proof.
  intros D E. rewrite (pick_distinct _ _ D).
  change (prop ?o ?x) with (Lodash.get o x).
  rewrite get_pick_list, E. cbn [andb].
  destruct (Lodash.hasIn object k) eqn:Hk; [reflexivity|].
  symmetry. now apply not_hasIn_prop.
Qed.

End Submission.

(* ================================================================== *)
(** ** Claims on the submission reducer *)

(** C4, as stated, fails: on a receipt whose payee has the numeric identifier
    4242, the first pass gives the reference [{legacyId: 4242}] and the
    second pass, reading the [id] of that reference, [{legacyId: undefined}]. *)
Lemma prepare_twice_loses_legacy_id :
  wf_draft receiptDraft = true
  /\ exists p p',
      @ExpenseForm.prepareExpenseForSubmit sampleImports receiptDraft = Some p
      /\ @ExpenseForm.prepareExpenseForSubmit sampleImports p = Some p'
      /\ prop p "payee" = VObj [("legacyId", VNum 4242)]
      /\ prop p' "payee" = VObj [("legacyId", VUndef)]
      /\ p' <> p.
Proof.
  split; [reflexivity|].
  eexists. eexists. split; [vm_compute; reflexivity|].
  split; [vm_compute; reflexivity|].
  split; [reflexivity|]. split; [reflexivity|]. discriminate.
Qed.

(** C4, amended.  Applied to its own result on an accepted draft, the reducer
    returns again, with the same value for every property but [payee].  The
    whole result is the same when the draft's payee is absent (falsy), has a
    string identifier or has no identifier; for a payee whose identifier is
    not a string the second reference is [{legacyId: undefined}]. *)
Theorem prepare_twice `{Imports} (draft : value) :
  wf_draft draft = true ->
  exists p p',
    ExpenseForm.prepareExpenseForSubmit draft = Some p
    /\ ExpenseForm.prepareExpenseForSubmit p = Some p'
    /\ (forall k, k <> "payee" -> prop p' k = prop p k)
    /\ (let payee := prop draft "payee" in
        let id := prop payee "id" in
        (truthy payee = false \/ typeof id = "string" \/ id = VUndef -> p' = p)
        /\ (truthy payee = true -> typeof id <> "string" ->
            prop p' "payee" = VObj [("legacyId", VUndef)])).
Proof.
  intros W. exists (payload draft), (payload (payload draft)).
  split; [now apply prepare_payload|]. split.
  - apply prepare_payload. apply payloadWith_wf.
  - rewrite payload_payload. unfold payload.
    destruct (payeeReference_twice (prop draft "payee")) as [Same Lost].
    split; [|split].
    + intros k Hk. unfold payloadWith, prop. rewrite !lookup_app.
      destruct (lookup k (pick_list draft scalarPaths)); [reflexivity|].
      unfold payloadEntries. cbn [lookup].
      destruct ("payee" =? k) eqn:Ek; [|reflexivity].
      apply String.eqb_eq in Ek. now subst k.
    + intros C. now rewrite (Same C).
    + intros T S. rewrite (Lost T S).
      now rewrite payloadWith_entry.
Qed.

Lemma prepare_twice_witness :
  exists p p',
    @ExpenseForm.prepareExpenseForSubmit sampleImports invoiceDraft = Some p
    /\ @ExpenseForm.prepareExpenseForSubmit sampleImports p = Some p'
    /\ p' = p.
Proof.
  destruct (@prepare_twice sampleImports invoiceDraft eq_refl)
    as (p & p' & E & E' & _ & Same & _).
  exists p, p'. split; [exact E|]. split; [exact E'|].
  apply Same. right. left. reflexivity.
Defined.

(** C5. For a draft with a payee, the payload's [payee] is an object with
    exactly one key: [id] when the payee's identifier is a string, [legacyId]
    otherwise; the value is the identifier. *)
Theorem payee_reference_single_key `{Imports} (draft : value) :
  wf_draft draft = true ->
  truthy (prop draft "payee") = true ->
  exists p,
    ExpenseForm.prepareExpenseForSubmit draft = Some p
    /\ let id := prop (prop draft "payee") "id" in
       (typeof id = "string" -> prop p "payee" = VObj [("id", id)])
       /\ (typeof id <> "string" -> prop p "payee" = VObj [("legacyId", id)]).
Proof.
  intros W T. exists (payload draft). split; [now apply prepare_payload|].
  unfold payload. rewrite payloadWith_entry by reflexivity.
  exact (payeeReference_truthy _ T).
Qed.

Lemma payee_reference_single_key_witness :
  exists p,
    @ExpenseForm.prepareExpenseForSubmit sampleImports receiptDraft = Some p
    /\ prop p "payee" = VObj [("legacyId", VNum 4242)].
Proof.
  destruct (@payee_reference_single_key sampleImports receiptDraft
              eq_refl eq_refl) as (p & E & _ & L).
  exists p. split; [exact E|]. apply L. discriminate.
Defined.

(** C6. The payload depends on the draft's type.  For an invoice,
    [payeeLocation] is the draft's address and country, the attached files
    are kept, each reduced to its [id] and [url], and no item has a [url].
    For a receipt, [payeeLocation] is [null], [attachedFiles] is empty and
    every item keeps the [url] it has.  For a funding request no item has a
    [url]. *)
Theorem payload_by_type `{Imports} (draft : value) :
  wf_draft draft = true ->
  exists p items,
    ExpenseForm.prepareExpenseForSubmit draft = Some p
    /\ prop p "items" = VArr items
    /\ (prop draft "type" = VStr INVOICE ->
        prop p "payeeLocation"
        = VObj (pick_list (prop draft "payeeLocation") ["address"; "country"])
        /\ (forall fs, prop draft "attachedFiles" = VArr fs ->
                       prop p "attachedFiles"
                       = VArr (map (fun file => VObj (pick_list file ["id"; "url"]))
                                 fs))
        /\ Forall (fun item => Lodash.hasIn item "url" = false) items)
    /\ (prop draft "type" = VStr RECEIPT ->
        RECEIPT <> INVOICE -> RECEIPT <> FUNDING_REQUEST ->
        prop p "payeeLocation" = VNull
        /\ prop p "attachedFiles" = VArr []
        /\ Forall2 (fun item item' =>
                      Lodash.hasIn item' "url" = Lodash.hasIn item "url"
                      /\ prop item' "url" = prop item "url")
             (itemsOf draft) items)
    /\ (prop draft "type" = VStr FUNDING_REQUEST ->
        Forall (fun item => Lodash.hasIn item "url" = false) items).
Proof.
  intros W.
  exists (payload draft),
    (map (submittedItem (prop draft "type")) (itemsOf draft)).
  split; [now apply prepare_payload|].
  unfold payload. rewrite !payloadWith_entry by reflexivity.
  unfold payloadEntries. cbn [prop lookup String.eqb Ascii.eqb Bool.eqb].
  split; [reflexivity|].
  assert (NoUrl : forall type,
             strict_eq_str type INVOICE || strict_eq_str type FUNDING_REQUEST
             = true ->
             Forall (fun item => Lodash.hasIn item "url" = false)
               (map (submittedItem type) (itemsOf draft))).
  { intros type E. apply Forall_forall. intros item' Hin.
    apply in_map_iff in Hin as (item & <- & _). unfold submittedItem.
    rewrite hasIn_pick by apply itemPaths_distinct.
    unfold ExpenseForm.itemPaths. rewrite E.
    now destruct (truthy (prop item "__isNew")). }
  split; [|split].
  - intros ->. cbn [strict_eq_str]. rewrite String.eqb_refl.
    split; [now rewrite pick_distinct|]. split.
    + intros fs ->. f_equal. apply map_ext. intros file.
      unfold submittedFile. now rewrite pick_distinct.
    + apply NoUrl. cbn [strict_eq_str]. now rewrite String.eqb_refl.
  - intros -> NI NF. cbn [strict_eq_str].
    apply String.eqb_neq in NI, NF. rewrite NI.
    split; [reflexivity|]. split; [reflexivity|].
    clear NoUrl.
    induction (itemsOf draft) as [|item items IH]; cbn [map]; [constructor|].
    constructor; [|exact IH].
    unfold submittedItem. cbn [strict_eq_str]. rewrite NI, NF.
    rewrite hasIn_pick by apply itemPaths_distinct.
    rewrite prop_pick;
      [| apply itemPaths_distinct | now destruct (truthy (prop item "__isNew"))].
    split; [|reflexivity].
    now destruct (truthy (prop item "__isNew")).
  - intros ->. apply NoUrl. cbn [strict_eq_str].
    rewrite String.eqb_refl. apply orb_true_r.
Qed.

Lemma payload_by_type_witness :
  exists p items,
    @ExpenseForm.prepareExpenseForSubmit sampleImports receiptDraft = Some p
    /\ prop p "items" = VArr items
    /\ prop p "payeeLocation" = VNull
    /\ prop p "attachedFiles" = VArr []
    /\ Forall2 (fun item item' =>
                  Lodash.hasIn item' "url" = Lodash.hasIn item "url"
                  /\ prop item' "url" = prop item "url")
         (itemsOf receiptDraft) items.
Proof.
  destruct (@payload_by_type sampleImports receiptDraft eq_refl)
    as (p & items & E & I & _ & R & _).
  exists p, items. split; [exact E|]. split; [exact I|].
  apply R; [reflexivity | discriminate | discriminate].
Defined.

(* ================================================================== *)
(** ** The validator *)

Section Validation.
Context `{Imports}.

Lemma lookup_set_field_same (k : string) (v : value) (fs : fields) :
  lookup k (set_field k v fs) = Some v.
Proof.
  induction fs as [|[k' v'] fs IH]; simpl.
  - now rewrite String.eqb_refl.
  - destruct (k' =? k) eqn:E; simpl; [now rewrite String.eqb_refl|].
    now rewrite E.
Qed.

Lemma lookup_set_field_other (k k' : string) (v : value) (fs : fields) :
  k' <> k -> lookup k (set_field k' v fs) = lookup k fs.
Proof.
  intros N. apply String.eqb_neq in N.
  induction fs as [|[a w] fs IH]; simpl.
  - now rewrite N.
  - destruct (a =? k') eqn:E; simpl.
    + apply String.eqb_eq in E. subst a. now rewrite N.
    + now rewrite IH.
Qed.

(** A draft with an array of items is an object. *)
Lemma items_object (draft : value) (items : list value) :
  prop draft "items" = VArr items -> nullish draft = false.
Proof. destruct draft; simpl; try discriminate; reflexivity. Qed.

(** The first required-field check never mentions [payeeLocation]. *)
Lemma base_errors_no_location (draft : value) :
  lookup "payeeLocation"
    (own (FormUtils.requireFields draft
            [["description"]; ["payee"]; ["payoutMethod"]; ["currency"]]))
  = None.
Proof.
  unfold FormUtils.requireFields. cbn [fold_left own].
  destruct (FormUtils.isMissing (Lodash.get_path draft ["description"]));
    destruct (FormUtils.isMissing (Lodash.get_path draft ["payee"]));
    destruct (FormUtils.isMissing (Lodash.get_path draft ["payoutMethod"]));
    destruct (FormUtils.isMissing (Lodash.get_path draft ["currency"]));
    reflexivity.
Qed.

(** On a draft whose items are an array the validator returns. *)
Lemma validate_steps (draft : value) (items : list value) :
  prop draft "items" = VArr items ->
  ExpenseForm.validate draft
  = Some (VObj
            (if strict_eq_str (prop draft "type") INVOICE
             then assign (errorsBeforeInvoiceRule draft items)
                    (own (FormUtils.requireFields draft locationPaths))
             else errorsBeforeInvoiceRule draft items)).
Proof.
  intros I. pose proof (items_object _ _ I) as N.
  unfold ExpenseForm.validate, errorsBeforeInvoiceRule, locationPaths.
  rewrite !member_defined by exact N. rewrite I.
  cbn [bind ret length_of gt_zero].
  destruct (0 <? Z.of_nat (List.length items))%Z; cbn [as_array bind ret andb];
    destruct (truthy (prop draft "payoutMethod")); cbn [andb]; reflexivity.
Qed.

(** What the invoice rule adds. *)
Lemma location_errors (draft : value) (errors : fields) :
  let missing path := FormUtils.isMissing (Lodash.get_path draft path) in
  let errors' :=
    assign errors (own (FormUtils.requireFields draft locationPaths)) in
  (missing ["payeeLocation"; "country"] = true ->
   Lodash.get_path (VObj errors') ["payeeLocation"; "country"]
   = FormUtils.FORM_FIELD_REQUIRED)
  /\ (missing ["payeeLocation"; "address"] = true ->
      Lodash.get_path (VObj errors') ["payeeLocation"; "address"]
      = FormUtils.FORM_FIELD_REQUIRED).
Proof.
  intros missing errors'. subst missing errors'.
  unfold FormUtils.requireFields, locationPaths. cbn [fold_left own].
  destruct (FormUtils.isMissing
              (Lodash.get_path draft ["payeeLocation"; "country"]));
    destruct (FormUtils.isMissing
                (Lodash.get_path draft ["payeeLocation"; "address"]));
    split; intros E; try discriminate E;
    cbn [Lodash.set lookup assign fold_left fst snd set_field
           String.eqb Ascii.eqb Bool.eqb];
    unfold Lodash.get_path; cbn [fold_left];
    unfold Lodash.get, prop at 2; rewrite lookup_set_field_same;
    reflexivity.
Qed.

Lemma errorsBeforeInvoiceRule_no_location (draft : value) (items : list value) :
  lookup "payeeLocation" (errorsBeforeInvoiceRule draft items) = None.
Proof.
  unfold errorsBeforeInvoiceRule.
  repeat match goal with
         | |- context [if ?c then _ else _] => destruct c
         end;
    rewrite ?lookup_set_field_other by discriminate;
    apply base_errors_no_location.
Qed.

End Validation.

(* ================================================================== *)
(** ** Claims on the validator *)

(** C7. For a receipt with an empty description, no payee, no payout method,
    a currency and no item, [validate] returns a mapping with
    [FORM_FIELD_REQUIRED] for [description], [payee] and [payoutMethod], no
    entry for [currency] and none for [payeeLocation]. *)
Theorem required_fields_of_empty_receipt `{Imports}
        (draft : value) (currency : string) :
  RECEIPT <> INVOICE ->
  prop draft "description" = VStr "" ->
  prop draft "payee" = VNull ->
  prop draft "payoutMethod" = VNull ->
  prop draft "currency" = VStr currency -> currency <> "" ->
  prop draft "items" = VArr [] ->
  prop draft "type" = VStr RECEIPT ->
  exists errors,
    ExpenseForm.validate draft = Some errors
    /\ prop errors "description" = FormUtils.FORM_FIELD_REQUIRED
    /\ prop errors "payee" = FormUtils.FORM_FIELD_REQUIRED
    /\ prop errors "payoutMethod" = FormUtils.FORM_FIELD_REQUIRED
    /\ Lodash.hasIn errors "currency" = false
    /\ Lodash.hasIn errors "payeeLocation" = false.
Proof.
  intros NI D P PM C NC I T.
  rewrite (validate_steps _ _ I), T. cbn [strict_eq_str].
  apply String.eqb_neq in NI, NC. rewrite NI.
  unfold errorsBeforeInvoiceRule, FormUtils.requireFields, Lodash.get_path.
  cbn [fold_left]. unfold Lodash.get. rewrite D, P, PM, C.
  cbn [FormUtils.isMissing truthy andb]. rewrite NC.
  eexists. split; [reflexivity|]. repeat split.
Qed.

Lemma required_fields_of_empty_receipt_witness :
  exists errors,
    @ExpenseForm.validate sampleImports emptyReceipt = Some errors
    /\ prop errors "description" = FormUtils.FORM_FIELD_REQUIRED
    /\ prop errors "payee" = FormUtils.FORM_FIELD_REQUIRED
    /\ prop errors "payoutMethod" = FormUtils.FORM_FIELD_REQUIRED
    /\ Lodash.hasIn errors "currency" = false
    /\ Lodash.hasIn errors "payeeLocation" = false.
Proof.
  apply (@required_fields_of_empty_receipt sampleImports emptyReceipt "USD");
    try reflexivity; discriminate.
Defined.

(** C8. For an invoice, [validate] also requires [payeeLocation.country] and
    [payeeLocation.address]: each one that is missing or empty gets
    [FORM_FIELD_REQUIRED] at its path of the returned mapping.  For a draft
    of any other type the mapping has no [payeeLocation] entry. *)
Theorem invoice_requires_payee_location `{Imports}
        (draft : value) (items : list value) :
  prop draft "items" = VArr items ->
  exists errors,
    ExpenseForm.validate draft = Some errors
    /\ (prop draft "type" = VStr INVOICE ->
        forall field, In field ["country"; "address"] ->
          FormUtils.isMissing
            (Lodash.get_path draft ["payeeLocation"; field]) = true ->
          Lodash.get_path errors ["payeeLocation"; field]
          = FormUtils.FORM_FIELD_REQUIRED)
    /\ (prop draft "type" <> VStr INVOICE ->
        Lodash.hasIn errors "payeeLocation" = false).
Proof.
  intros I. rewrite (validate_steps _ _ I).
  eexists. split; [reflexivity|]. split.
  - intros ->. cbn [strict_eq_str]. rewrite String.eqb_refl.
    destruct (location_errors draft (errorsBeforeInvoiceRule draft items))
      as [Country Address].
    intros field [<-|[<-|[]]]; assumption.
  - intros NT.
    destruct (strict_eq_str (prop draft "type") INVOICE) eqn:E.
    + apply strict_eq_str_true in E. contradiction.
    + unfold Lodash.hasIn, has.
      now rewrite errorsBeforeInvoiceRule_no_location.
Qed.

Lemma invoice_requires_payee_location_witness :
  exists errors,
    @ExpenseForm.validate sampleImports emptyInvoice = Some errors
    /\ Lodash.get_path errors ["payeeLocation"; "country"]
       = FormUtils.FORM_FIELD_REQUIRED
    /\ Lodash.get_path errors ["payeeLocation"; "address"]
       = FormUtils.FORM_FIELD_REQUIRED.
Proof.
  destruct (@invoice_requires_payee_location sampleImports emptyInvoice []
              eq_refl) as (errors & E & Inv & _).
  exists errors. split; [exact E|]. split.
  - apply (Inv eq_refl "country"); [left; reflexivity | reflexivity].
  - apply (Inv eq_refl "address"); [right; left; reflexivity | reflexivity].
Defined.

(* ================================================================== *)
(** ** More on the eligibility filter *)

Section EligibilityMore.
Context `{Imports}.

Lemma filter_filter_and (g h : value -> bool) (xs : list value) :
  filter g (filter h xs) = filter (fun x => h x && g x) xs.
Proof.
  induction xs as [|x xs IH]; simpl; [reflexivity|].
  destruct (h x); simpl; [|exact IH].
  destruct (g x); now rewrite IH.
Qed.

Lemma filter_nil_existsb (g : value -> bool) (xs : list value) :
  filter g xs = [] <-> existsb g xs = false.
Proof.
  split; [|apply filter_none].
  induction xs as [|x xs IH]; simpl; [reflexivity|].
  destruct (g x); [discriminate | exact IH].
Qed.

Lemma newAccountBalance_isAccountBalance :
  isAccountBalance (newAccountBalance ACCOUNT_BALANCE) = true.
Proof. apply isAccountBalance_type. reflexivity. Qed.

Lemma eligible_active_has_balance (family : list string) (payee : value) :
  truthy (prop payee "isActive") = true ->
  exists pm, In pm (eligible family payee) /\ isAccountBalance pm = true.
Proof.
  intros A. unfold eligible. rewrite A. cbn [andb].
  destruct (existsb isAccountBalance (savedMethods payee)) eqn:E; cbn [negb].
  - apply existsb_exists in E as (pm & Hin & Hab). exists pm.
    split; [|exact Hab].
    destruct (includes family (prop payee "type")); [|exact Hin].
    apply filter_In. now split.
  - exists (newAccountBalance ACCOUNT_BALANCE).
    split; [|apply newAccountBalance_isAccountBalance].
    destruct (includes family (prop payee "type")); [|now left].
    apply filter_In. split; [now left | apply newAccountBalance_isAccountBalance].
Qed.

End EligibilityMore.

(** X1. Each copy of [getPayoutMethodsFromPayee] raises exactly on the
    payees whose [payoutMethods] is a truthy value that is not an array, or
    an array with an [undefined] or [null] entry; on every other payee, the
    absent one included, it returns. *)
Theorem getPayoutMethodsFromPayee_raises `{Imports} (payee : value) :
  (ExpenseForm.getPayoutMethodsFromPayee payee = None
   <-> wf_payee payee = false)
  /\ (ExpenseFormPayeeSignUpStep.getPayoutMethodsFromPayee payee = None
      <-> wf_payee payee = false).
Proof.
  assert (G : forall family f, In (family, f) copies ->
                               (f payee = None <-> wf_payee payee = false)).
  { intros family f C. split.
    - intros E. destruct (wf_payee payee) eqn:W; [|reflexivity].
      rewrite (copies_eligible _ _ _ C W) in E. discriminate.
    - intros W. destruct (f payee) as [r|] eqn:E; [|reflexivity].
      rewrite (copies_defined _ _ _ _ C E) in W. discriminate. }
  split; eapply G; [left | right; left]; reflexivity.
Qed.

(** X2. What a copy returns is [payee.payoutMethods] with some entries
    removed, in the original order, all of the kept ones saved; the only
    entry ever added is the new account balance, in front, and only for an
    active payee. *)
Theorem result_is_filtered_methods `{Imports}
        (family : list string) (f : value -> M (list value))
        (payee : value) (pms : list value) :
  In (family, f) copies ->
  f payee = Some pms ->
  exists keep,
    (forall pm, keep pm = true -> isSaved pm = true)
    /\ (pms = filter keep (payoutMethodsOf payee)
        \/ (truthy (prop payee "isActive") = true
            /\ pms = newAccountBalance ACCOUNT_BALANCE
                     :: filter keep (payoutMethodsOf payee))).
Proof.
  intros C E. pose proof (copies_defined _ _ _ _ C E) as W.
  rewrite (copies_eligible _ _ _ C W) in E. injection E as <-.
  exists (fun pm => isSaved pm
                    && (if includes family (prop payee "type")
                        then isAccountBalance pm else true)).
  split.
  - intros pm K. now apply andb_true_iff in K as [K _].
  - unfold eligible, savedMethods.
    destruct (truthy (prop payee "isActive")
              && negb (existsb isAccountBalance
                         (filter isSaved (payoutMethodsOf payee)))) eqn:Inj.
    + right. apply andb_true_iff in Inj as [A _]. split; [exact A|].
      destruct (includes family (prop payee "type")).
      * cbn [filter]. rewrite newAccountBalance_isAccountBalance.
        now rewrite filter_filter_and.
      * f_equal. apply filter_ext. intros pm. now rewrite andb_true_r.
    + left. destruct (includes family (prop payee "type")).
      * now rewrite filter_filter_and.
      * apply filter_ext. intros pm. now rewrite andb_true_r.
Qed.

Lemma result_is_filtered_methods_witness :
  exists keep,
    (forall pm, keep pm = true -> isSaved pm = true)
    /\ ([newAccountBalance "ACCOUNT_BALANCE"; bankAccount]
        = filter keep (payoutMethodsOf activeHost)
        \/ (truthy (prop activeHost "isActive") = true
            /\ [newAccountBalance "ACCOUNT_BALANCE"; bankAccount]
               = newAccountBalance "ACCOUNT_BALANCE"
                 :: filter keep (payoutMethodsOf activeHost))).
Proof.
  apply (@result_is_filtered_methods sampleImports
           (@CollectiveFamilyTypes sampleImports)
           (@ExpenseForm.getPayoutMethodsFromPayee sampleImports)
           activeHost); [left|]; reflexivity.
Defined.

(** X3. An active payee always gets an account balance: what a copy returns
    for it holds an entry of type [ACCOUNT_BALANCE], so is never empty. *)
Theorem active_payee_has_account_balance `{Imports}
        (family : list string) (f : value -> M (list value)) (payee : value) :
  In (family, f) copies ->
  wf_payee payee = true ->
  truthy (prop payee "isActive") = true ->
  exists pms pm,
    f payee = Some pms /\ In pm pms /\ prop pm "type" = VStr ACCOUNT_BALANCE.
Proof.
  intros C W A.
  destruct (eligible_active_has_balance family payee A) as (pm & Hin & Hab).
  exists (eligible family payee), pm.
  split; [now apply copies_eligible|]. split; [exact Hin|].
  now apply isAccountBalance_type.
Qed.

Lemma active_payee_has_account_balance_witness :
  exists pms pm,
    @ExpenseFormPayeeSignUpStep.getPayoutMethodsFromPayee sampleImports
      activeCollective = Some pms
    /\ In pm pms /\ prop pm "type" = VStr "ACCOUNT_BALANCE".
Proof.
  apply (@active_payee_has_account_balance sampleImports
           (@AccountTypesWithHost sampleImports)
           (@ExpenseFormPayeeSignUpStep.getPayoutMethodsFromPayee sampleImports)
           activeCollective); [right; left| |]; reflexivity.
Defined.

(** X4. A copy returns the empty sequence exactly for a payee that is not
    active and has, when its type is in the family, no saved account balance
    and, when it is not, no saved method at all. *)
Theorem no_eligible_method `{Imports}
        (family : list string) (f : value -> M (list value)) (payee : value) :
  In (family, f) copies ->
  wf_payee payee = true ->
  (f payee = Some []
   <-> truthy (prop payee "isActive") = false
       /\ if includes family (prop payee "type")
          then existsb isAccountBalance (savedMethods payee) = false
          else savedMethods payee = []).
Proof.
  intros C W. rewrite (copies_eligible _ _ _ C W).
  destruct (truthy (prop payee "isActive")) eqn:A.
  - destruct (eligible_active_has_balance family payee A) as (pm & Hin & _).
    split; [|intros [D _]; discriminate D].
    intros E. injection E as E. rewrite E in Hin. destruct Hin.
  - unfold eligible. rewrite A. cbn [andb].
    destruct (includes family (prop payee "type")).
    + rewrite <- filter_nil_existsb. split.
      * intros E. injection E as E. now split.
      * intros [_ E]. now rewrite E.
    + split.
      * intros E. injection E as E. now split.
      * intros [_ E]. now rewrite E.
Qed.

Lemma no_eligible_method_witness :
  @ExpenseForm.getPayoutMethodsFromPayee sampleImports
    (VObj [("type", VStr "EVENT"); ("isActive", VBool false);
           ("payoutMethods", VArr [bankAccount])])
  = Some [].
Proof.
  apply (@no_eligible_method sampleImports
           (@CollectiveFamilyTypes sampleImports)
           (@ExpenseForm.getPayoutMethodsFromPayee sampleImports)
           (VObj [("type", VStr "EVENT"); ("isActive", VBool false);
                  ("payoutMethods", VArr [bankAccount])]));
    [left; reflexivity | reflexivity | split; reflexivity].
Defined.

(* ================================================================== *)
(** ** More on the submission reducer *)

Section SubmissionMore.
Context `{Imports}.

Lemma mapM_none (f : value -> M value) (xs : list value) :
  Exists (fun x => f x = None) xs -> mapM f xs = None.
Proof.
  induction 1 as [x xs Hx|x xs _ IH]; simpl.
  - now rewrite Hx.
  - destruct (f x); [|reflexivity]. cbn [bind]. now rewrite IH.
Qed.

Lemma prepareItem_nullish (i f : bool) (xs : list value) :
  forallb (fun item => negb (nullish item)) xs = false ->
  mapM (ExpenseForm.prepareItem i f) xs = None.
Proof.
  intros E. apply mapM_none.
  induction xs as [|x xs IH]; simpl in E; [discriminate|].
  destruct (nullish x) eqn:N; simpl in E.
  - left. unfold ExpenseForm.prepareItem, member. now rewrite N.
  - right. now apply IH.
Qed.

Lemma prepare_accepted (draft : value) :
  accepted draft = true ->
  ExpenseForm.prepareExpenseForSubmit draft = Some (payload draft).
Proof.
  unfold accepted. intros W.
  apply andb_true_iff in W as [W Wf]. apply andb_true_iff in W as [N Wi].
  apply negb_true_iff in N.
  destruct (strict_eq_str (prop draft "type") INVOICE) eqn:Inv.
  - apply prepare_payload. unfold wf_draft. now rewrite N, Wi, Wf.
  - unfold ExpenseForm.prepareExpenseForSubmit, payload, payloadWith,
      payloadEntries, itemsOf.
    rewrite !member_defined by exact N. cbn [bind]. rewrite Inv.
    destruct (prop draft "items") as [| | | | |xs|] eqn:Ei; try discriminate Wi.
    pose proof (prepareItem_defined _ _ (prop draft "type") xs eq_refl eq_refl Wi)
      as P.
    apply mapM_total in P. rewrite Inv in P.
    cbn [as_array bind ret]. rewrite P. cbn [bind ret].
    rewrite (pick_distinct draft) by reflexivity. cbn [own].
    rewrite assign_fresh; [reflexivity | reflexivity |].
    intros k Hk. rewrite lookup_pick_list.
    unfold mem in Hk. cbn [map fst existsb] in Hk.
    repeat (apply orb_true_iff in Hk as [Hk|Hk];
            [apply String.eqb_eq in Hk; subst k; reflexivity|]).
    discriminate Hk.
Qed.

Lemma prepare_rejected (draft : value) :
  accepted draft = false ->
  ExpenseForm.prepareExpenseForSubmit draft = None.
Proof.
  unfold accepted. intros W.
  unfold ExpenseForm.prepareExpenseForSubmit.
  destruct (nullish draft) eqn:N.
  - unfold member. now rewrite N.
  - rewrite !member_defined by exact N. cbn [bind].
    cbn [negb andb] in W.
    destruct (strict_eq_str (prop draft "type") INVOICE).
    + destruct (prop draft "attachedFiles"); cbn [nullish as_array bind ret];
        try reflexivity;
        (destruct (prop draft "items"); cbn [as_array bind ret];
         try reflexivity;
         rewrite andb_true_r in W; now rewrite (prepareItem_nullish _ _ _ W)).
    + cbn [bind ret]. destruct (prop draft "items"); cbn [as_array bind ret];
        try reflexivity.
      rewrite andb_true_r in W. now rewrite (prepareItem_nullish _ _ _ W).
Qed.

Lemma prepare_Some (draft p : value) :
  ExpenseForm.prepareExpenseForSubmit draft = Some p -> p = payload draft.
Proof.
  intros E. destruct (accepted draft) eqn:A.
  - rewrite (prepare_accepted _ A) in E. now injection E.
  - rewrite (prepare_rejected _ A) in E. discriminate.
Qed.

Lemma mem_true_In (k : string) (ks : list string) : mem k ks = true -> In k ks.
Proof.
  unfold mem. intros E. apply existsb_exists in E as (x & Hin & Ex).
  apply String.eqb_eq in Ex. now subst x.
Qed.

Lemma hasIn_pick_In (object : value) (ks : list string) (k : string) :
  distinct ks = true ->
  Lodash.hasIn (Lodash.pick object ks) k = true -> In k ks.
Proof.
  intros D E. rewrite (hasIn_pick _ _ _ D) in E.
  apply andb_true_iff in E as [E _]. now apply mem_true_In.
Qed.

End SubmissionMore.

(** X5. [prepareExpenseForSubmit] raises exactly on the drafts that are
    [undefined] or [null], whose [items] is not an array or holds an
    [undefined] or [null] entry, or, for an invoice only, whose
    [attachedFiles] is neither absent nor an array. *)
Theorem prepareExpenseForSubmit_raises `{Imports} (draft : value) :
  ExpenseForm.prepareExpenseForSubmit draft = None <-> accepted draft = false.
Proof.
  split.
  - intros E. destruct (accepted draft) eqn:A; [|reflexivity].
    rewrite (prepare_accepted _ A) in E. discriminate.
  - apply prepare_rejected.
Qed.

(** X6. A payload carries no property but the seven scalar ones, [payee],
    [payoutMethod], [payeeLocation], [attachedFiles] and [items]: whatever
    else the draft holds, its [currency] included, is not submitted. *)
Theorem payload_names `{Imports} (draft p : value) (k : string) :
  ExpenseForm.prepareExpenseForSubmit draft = Some p ->
  Lodash.hasIn p k = true ->
  In k payloadNames.
Proof.
  intros E. apply prepare_Some in E. subst p.
  unfold payload, payloadWith, Lodash.hasIn, has, payloadNames.
  rewrite lookup_app, lookup_pick_list. intros K. apply in_or_app.
  destruct (mem k scalarPaths) eqn:S; [left; now apply mem_true_In|].
  right. cbn [andb] in K. unfold payloadEntries in K. cbn [lookup] in K.
  repeat match type of K with
         | context [?a =? k] =>
             let Ek := fresh "Ek" in
             destruct (a =? k) eqn:Ek;
             [apply String.eqb_eq in Ek; subst k; simpl; tauto|]
         end.
  discriminate K.
Qed.

Lemma payload_names_witness :
  Lodash.hasIn receiptDraft "currency" = true
  /\ forall p,
       @ExpenseForm.prepareExpenseForSubmit sampleImports receiptDraft = Some p ->
       Lodash.hasIn p "currency" = false.
Proof.
  split; [reflexivity|]. intros p E.
  destruct (Lodash.hasIn p "currency") eqn:K; [|reflexivity].
  pose proof (@payload_names sampleImports receiptDraft p "currency" E K) as Hin.
  simpl in Hin.
  repeat (destruct Hin as [Hin|Hin]; [discriminate Hin|]). destruct Hin.
Defined.

(** X7. The payload has one item per item of the draft, in the same order.
    A submitted item carries no property but [id], [url], [description],
    [incurredAt] and [amount]; it has the draft item's [description],
    [incurredAt] and [amount] whenever the draft item has them, and its [id]
    unless the draft item is flagged [__isNew]. *)
Theorem submitted_items `{Imports} (draft p : value) :
  ExpenseForm.prepareExpenseForSubmit draft = Some p ->
  exists items,
    prop p "items" = VArr items
    /\ Forall2
         (fun item item' =>
            (forall k, Lodash.hasIn item' k = true -> In k itemNames)
            /\ (forall k, In k ["description"; "incurredAt"; "amount"] ->
                          Lodash.hasIn item' k = Lodash.hasIn item k
                          /\ prop item' k = prop item k)
            /\ Lodash.hasIn item' "id"
               = negb (truthy (prop item "__isNew")) && Lodash.hasIn item "id"
            /\ (truthy (prop item "__isNew") = false ->
                prop item' "id" = prop item "id"))
         (itemsOf draft) items.
Proof.
  intros E. apply prepare_Some in E. subst p.
  exists (map (submittedItem (prop draft "type")) (itemsOf draft)).
  split; [unfold payload; now rewrite payloadWith_entry|].
  induction (itemsOf draft) as [|item items IH]; cbn [map]; [constructor|].
  constructor; [|exact IH]. clear IH. unfold submittedItem.
  set (i := strict_eq_str (prop draft "type") INVOICE).
  set (f := strict_eq_str (prop draft "type") FUNDING_REQUEST).
  set (n := truthy (prop item "__isNew")).
  split; [|split; [|split]].
  - intros k K. apply hasIn_pick_In in K; [|apply itemPaths_distinct].
    unfold itemNames. destruct n, i, f; simpl in K |- *; tauto.
  - intros k Hin.
    assert (Mk : mem k (ExpenseForm.itemPaths n i f) = true).
    { apply mem_In. unfold ExpenseForm.itemPaths.
      apply in_or_app. right. apply in_or_app. now right. }
    rewrite hasIn_pick by apply itemPaths_distinct.
    rewrite prop_pick by (exact Mk || apply itemPaths_distinct).
    now rewrite Mk.
  - rewrite hasIn_pick by apply itemPaths_distinct.
    now destruct n, i, f.
  - intros N. rewrite N. apply prop_pick; [apply itemPaths_distinct|].
    now destruct i, f.
Qed.

Lemma submitted_items_witness :
  exists items,
    prop (@payload sampleImports receiptDraft) "items" = VArr items
    /\ Forall2
         (fun item item' =>
            Lodash.hasIn item' "id"
            = negb (truthy (prop item "__isNew")) && Lodash.hasIn item "id")
         (itemsOf receiptDraft) items.
Proof.
  destruct (@submitted_items sampleImports receiptDraft
              (@payload sampleImports receiptDraft) eq_refl)
    as (items & E & F).
  exists items. split; [exact E|].
  revert F. apply Forall2_impl. intros item item' (_ & _ & I & _). exact I.
Defined.

(** X8. The payload's [payoutMethod] is always an object, with the draft
    payout method's [id], [name], [data], [isSaved] and [type] and nothing
    else; for an absent payout method it is the empty object. *)
Theorem submitted_payout_method `{Imports} (draft p : value) :
  ExpenseForm.prepareExpenseForSubmit draft = Some p ->
  let payoutMethod := prop draft "payoutMethod" in
  exists fs,
    prop p "payoutMethod" = VObj fs
    /\ (forall k, has k fs = mem k payoutMethodNames && Lodash.hasIn payoutMethod k)
    /\ (forall k, In k payoutMethodNames ->
                  prop (VObj fs) k = prop payoutMethod k)
    /\ (nullish payoutMethod = true -> fs = []).
Proof.
  intros E pm. apply prepare_Some in E. subst p.
  exists (pick_list pm payoutMethodNames).
  split; [|split; [|split]].
  - unfold payload. rewrite payloadWith_entry by reflexivity.
    cbn [payloadEntries prop lookup String.eqb Ascii.eqb Bool.eqb].
    now rewrite pick_distinct.
  - intros k. apply (hasIn_pick_list pm payoutMethodNames k).
  - intros k Hin. rewrite <- (pick_distinct pm) by reflexivity.
    apply prop_pick; [reflexivity | now apply mem_In].
  - intros N. now destruct pm.
Qed.

Lemma submitted_payout_method_witness :
  exists fs,
    prop (@payload sampleImports emptyReceipt) "payoutMethod" = VObj fs
    /\ fs = [].
Proof.
  destruct (@submitted_payout_method sampleImports emptyReceipt
              (@payload sampleImports emptyReceipt) eq_refl)
    as (fs & E & _ & _ & N).
  exists fs. split; [exact E | apply N; reflexivity].
Defined.

(* ================================================================== *)
(** ** More on the validator *)

Section ValidationMore.
Context `{Imports}.

Lemma lookup_set_other (path : list string) (v : value) (fs : fields)
      (k : string) :
  hd_error path <> Some k ->
  lookup k (Lodash.set path v fs) = lookup k fs.
Proof.
  destruct path as [|k' rest]; [reflexivity|]. intros N.
  assert (N' : k' <> k) by (intros ->; now apply N).
  destruct rest; simpl; now apply lookup_set_field_other.
Qed.

(** A required-field check writes under the first names of its paths only. *)
Lemma requireFields_other (draft : value) (paths : list (list string))
      (k : string) :
  (forall path, In path paths -> hd_error path <> Some k) ->
  lookup k (own (FormUtils.requireFields draft paths)) = None.
Proof.
  intros N. unfold FormUtils.requireFields. cbn [own].
  enough (G : forall acc,
             lookup k
               (fold_left
                  (fun errors field =>
                     if FormUtils.isMissing (Lodash.get_path draft field)
                     then Lodash.set field FormUtils.FORM_FIELD_REQUIRED errors
                     else errors)
                  paths acc)
             = lookup k acc) by (now rewrite G).
  induction paths as [|path paths IH]; intros acc; [reflexivity|].
  cbn [fold_left]. rewrite IH by (intros p Hp; apply N; now right).
  destruct (FormUtils.isMissing (Lodash.get_path draft path)); [|reflexivity].
  apply lookup_set_other. apply N. now left.
Qed.

(** The first required-field check writes four names only. *)
Lemma base_errors_other (draft : value) (k : string) :
  ~ In k ["description"; "payee"; "payoutMethod"; "currency"] ->
  lookup k
    (own (FormUtils.requireFields draft
            [["description"]; ["payee"]; ["payoutMethod"]; ["currency"]]))
  = None.
Proof.
  intros N. apply requireFields_other. intros path Hin E.
  apply N. simpl in Hin |- *.
  repeat (destruct Hin as [<-|Hin]; [injection E as <-; tauto|]).
  destruct Hin.
Qed.

(** A payout method that is there is not reported as required. *)
Lemma base_errors_payoutMethod (draft : value) :
  truthy (prop draft "payoutMethod") = true ->
  lookup "payoutMethod"
    (own (FormUtils.requireFields draft
            [["description"]; ["payee"]; ["payoutMethod"]; ["currency"]]))
  = None.
Proof.
  intros T.
  assert (M : FormUtils.isMissing (Lodash.get_path draft ["payoutMethod"])
              = false).
  { unfold Lodash.get_path. cbn [fold_left]. unfold Lodash.get.
    destruct (prop draft "payoutMethod"); try discriminate T; try reflexivity.
    simpl in T |- *. now apply negb_true_iff in T. }
  unfold FormUtils.requireFields. cbn [fold_left own]. rewrite M.
  destruct (FormUtils.isMissing (Lodash.get_path draft ["description"]));
    destruct (FormUtils.isMissing (Lodash.get_path draft ["payee"]));
    destruct (FormUtils.isMissing (Lodash.get_path draft ["currency"]));
    reflexivity.
Qed.

(** The invoice rule writes [payeeLocation] only. *)
Lemma location_errors_other (draft : value) (errors : fields) (k : string) :
  k <> "payeeLocation" ->
  lookup k (assign errors (own (FormUtils.requireFields draft locationPaths)))
  = lookup k errors.
Proof.
  intros N.
  unfold FormUtils.requireFields, locationPaths. cbn [fold_left own].
  destruct (FormUtils.isMissing
              (Lodash.get_path draft ["payeeLocation"; "country"]));
    destruct (FormUtils.isMissing
                (Lodash.get_path draft ["payeeLocation"; "address"]));
    cbn [Lodash.set lookup assign fold_left fst snd set_field
           String.eqb Ascii.eqb Bool.eqb];
    rewrite ?lookup_set_field_other by (intros E; apply N; now rewrite E);
    reflexivity.
Qed.

(** Reading a name other than [payeeLocation] in what [validate] returns. *)
Lemma validate_lookup (draft : value) (items : list value) (k : string) :
  prop draft "items" = VArr items ->
  k <> "payeeLocation" ->
  exists errors,
    ExpenseForm.validate draft = Some (VObj errors)
    /\ lookup k errors = lookup k (errorsBeforeInvoiceRule draft items).
Proof.
  intros I N. rewrite (validate_steps _ _ I).
  eexists. split; [reflexivity|].
  destruct (strict_eq_str (prop draft "type") INVOICE); [|reflexivity].
  now apply location_errors_other.
Qed.

Lemma existsb_nonempty (h : value -> value) (t : value -> bool)
      (xs : list value) :
  existsb t (map h xs) = true -> (0 <? Z.of_nat (List.length xs))%Z = true.
Proof. destruct xs; simpl; [discriminate | reflexivity]. Qed.

End ValidationMore.

Lemma validate_items_errors `{Imports} (draft : value) (items : list value) :
  prop draft "items" = VArr items ->
  let itemsErrors := map (validateExpenseItem draft) items in
  exists errors,
    ExpenseForm.validate draft = Some errors
    /\ (existsb (fun e => negb (Lodash.isEmpty e)) itemsErrors = true ->
        prop errors "items" = VArr itemsErrors)
    /\ (existsb (fun e => negb (Lodash.isEmpty e)) itemsErrors = false ->
        Lodash.hasIn errors "items" = false).
Proof.
  intros I itemsErrors.
  destruct (validate_lookup draft items "items" I) as (errors & E & L);
    [discriminate|].
  exists (VObj errors). split; [exact E|].
  unfold prop, Lodash.hasIn, has. rewrite L. clear E L.
  unfold errorsBeforeInvoiceRule. fold itemsErrors.
  assert (P : forall v e, lookup "items"
                (if truthy (prop draft "payoutMethod")
                    && negb (Lodash.isEmpty (validatePayoutMethod
                                               (prop draft "payoutMethod")))
                 then set_field "payoutMethod" v e else e)
              = lookup "items" e).
  { intros v e.
    destruct (truthy (prop draft "payoutMethod")
              && negb (Lodash.isEmpty (validatePayoutMethod
                                         (prop draft "payoutMethod"))));
      [now apply lookup_set_field_other | reflexivity]. }
  rewrite P. split; intros X; rewrite X.
  - rewrite (existsb_nonempty _ _ _ X). cbn [andb].
    now rewrite lookup_set_field_same.
  - rewrite andb_false_r.
    rewrite base_errors_other; [reflexivity|].
    simpl. intuition discriminate.
Qed.

(** X9. When an item fails its validation, [errors.items] is the sequence of
    the items' error mappings, one per item in the order of [draft.items],
    whatever else is wrong with the draft; when no item fails, the mapping
    has no [items] entry. *)
Theorem items_errors_aligned `{Imports} (draft : value) (items : list value) :
  prop draft "items" = VArr items ->
  let itemsErrors := map (validateExpenseItem draft) items in
  exists errors,
    ExpenseForm.validate draft = Some errors
    /\ (existsb (fun e => negb (Lodash.isEmpty e)) itemsErrors = true ->
        prop errors "items" = VArr itemsErrors)
    /\ (existsb (fun e => negb (Lodash.isEmpty e)) itemsErrors = false ->
        Lodash.hasIn errors "items" = false).
Proof. exact (validate_items_errors draft items). Qed.

Lemma items_errors_aligned_witness :
  exists errors,
    @ExpenseForm.validate strictImports
      (VObj [("description", VStr "Supplies"); ("type", VStr "RECEIPT");
             ("items", VArr [lunch; untitledItem])])
    = Some errors
    /\ prop errors "items"
       = VArr [VObj [];
               VObj [("description", FormUtils.FORM_FIELD_REQUIRED)]].
Proof.
  destruct (@items_errors_aligned strictImports
              (VObj [("description", VStr "Supplies"); ("type", VStr "RECEIPT");
                     ("items", VArr [lunch; untitledItem])])
              [lunch; untitledItem] eq_refl)
    as (errors & E & A & _).
  exists errors. split; [exact E | apply A; reflexivity].
Defined.

(** X10. For a draft with a payout method, [errors.payoutMethod] is what
    [validatePayoutMethod] reports when that is not empty, and the mapping
    has no [payoutMethod] entry when it is. *)
Theorem payout_method_errors `{Imports} (draft : value) (items : list value) :
  prop draft "items" = VArr items ->
  truthy (prop draft "payoutMethod") = true ->
  let payoutMethodErrors := validatePayoutMethod (prop draft "payoutMethod") in
  exists errors,
    ExpenseForm.validate draft = Some errors
    /\ (Lodash.isEmpty payoutMethodErrors = false ->
        prop errors "payoutMethod" = payoutMethodErrors)
    /\ (Lodash.isEmpty payoutMethodErrors = true ->
        Lodash.hasIn errors "payoutMethod" = false).
Proof.
  intros I T pe.
  destruct (validate_lookup draft items "payoutMethod" I) as (errors & E & L);
    [discriminate|].
  exists (VObj errors). split; [exact E|].
  unfold prop, Lodash.hasIn, has. rewrite L. clear E L.
  unfold errorsBeforeInvoiceRule. fold pe. rewrite T. cbn [andb].
  split; intros X; rewrite X; cbn [negb].
  - now rewrite lookup_set_field_same.
  - match goal with
    | |- context [if ?a && ?b then set_field _ _ _ else _] => destruct (a && b)
    end;
      rewrite ?lookup_set_field_other by discriminate;
      now rewrite base_errors_payoutMethod.
Qed.

Lemma payout_method_errors_witness :
  exists errors,
    @ExpenseForm.validate strictImports receiptDraft = Some errors
    /\ Lodash.hasIn errors "payoutMethod" = false.
Proof.
  destruct (@payout_method_errors strictImports receiptDraft [lunch]
              eq_refl eq_refl) as (errors & E & _ & A).
  exists errors. split; [exact E | apply A; reflexivity].
Defined.

(* ================================================================== *)
(** ** The invite form *)

(** X11. However the name and the email are edited, the value of the invite
    form stays an object with exactly [name], [email] and [isInvite], in that
    order, and [isInvite] stays [true]. *)
Theorem invite_form_shape (es : list (string * value)) (v : value) :
  Forall (fun edit => fst edit = "name" \/ fst edit = "email") es ->
  InviteCollectiveForm.edits es InviteCollectiveForm.initialValue = Some v ->
  exists name email,
    v = VObj [("name", name); ("email", email); ("isInvite", VBool true)].
Proof.
  unfold InviteCollectiveForm.initialValue.
  generalize (VStr "") at 1 as name. generalize (VStr "") as email.
  intros email name F. revert name email.
  induction F as [|[field e] es Hf _ IH]; intros name email E.
  - injection E as <-. now exists name, email.
  - cbn [InviteCollectiveForm.edits] in E.
    unfold InviteCollectiveForm.setValueProp, member in E.
    destruct (nullish e); [discriminate E|]. cbn [bind ret] in E.
    destruct Hf as [Hf|Hf]; cbn [fst] in Hf; subst field;
      cbn in E; apply IH in E; exact E.
Qed.

Lemma invite_form_shape_witness :
  exists name email,
    VObj [("name", VStr "Ada"); ("email", VStr "ada@example.org");
          ("isInvite", VBool true)]
    = VObj [("name", name); ("email", email); ("isInvite", VBool true)].
Proof.
  apply (invite_form_shape
           [("email", VObj [("target", VObj [("value", VStr "ada@")])]);
            ("name", VObj [("target", VObj [("value", VStr "Ada")])]);
            ("email", VObj [("target",
                             VObj [("value", VStr "ada@example.org")])])]).
  - repeat (apply Forall_cons; [cbn [fst]; auto|]). apply Forall_nil.
  - reflexivity.
Defined.

(* ================================================================== *)
(** ** The payee of the form *)

Section Payee.

Lemma setLocationFromPayee_located (payee : value) :
  nullish (opt_member payee "location") = false ->
  ExpenseFormBody.setLocationFromPayee payee
  = ([SetFieldValue "payeeLocation.country"
        (or_else (prop (prop payee "location") "country") VNull);
      SetFieldValue "payeeLocation.address"
        (or_else (prop (prop payee "location") "address") (VStr ""))],
     Some tt).
Proof.
  intros L. unfold ExpenseFormBody.setLocationFromPayee.
  assert (N : nullish payee = false) by (now destruct payee).
  rewrite opt_member_prop in L.
  rewrite !(member_defined payee) by exact N.
  cbn [lift ebind]. rewrite !member_defined by exact L. reflexivity.
Qed.

Lemma setLocationFromPayee_raises (payee : value) :
  nullish (opt_member payee "location") = true ->
  ExpenseFormBody.setLocationFromPayee payee = ([], None).
Proof.
  intros L. unfold ExpenseFormBody.setLocationFromPayee, member.
  destruct (nullish payee) eqn:N; [reflexivity|].
  rewrite opt_member_prop in L. cbn [lift ebind ret]. now rewrite L.
Qed.

End Payee.

(** X12. The [onChange] of the payee picker first sets [payee] to the chosen
    value and [payoutMethod] to [null].  When the chosen payee has no
    [location] it then raises, those two calls made; otherwise it sets
    [payeeLocation.country] to the location's country, [null] when there is
    none, and [payeeLocation.address] to its address, the empty string when
    there is none. *)
Theorem payeeOnChange_calls (option : value) :
  nullish option = false ->
  let payee := prop option "value" in
  let location := opt_member payee "location" in
  let made := [SetFieldValue "payee" payee; SetFieldValue "payoutMethod" VNull] in
  ExpenseFormBody.payeeOnChange option
  = if nullish location then (made, None)
    else (made
            ++ [SetFieldValue "payeeLocation.country"
                  (or_else (prop location "country") VNull);
                SetFieldValue "payeeLocation.address"
                  (or_else (prop location "address") (VStr ""))],
          Some tt).
Proof.
  intros N payee location made.
  unfold ExpenseFormBody.payeeOnChange.
  rewrite member_defined by exact N. fold payee. cbn [lift ebind emit].
  destruct (nullish location) eqn:L; subst location.
  - now rewrite setLocationFromPayee_raises.
  - rewrite setLocationFromPayee_located by exact L.
    now rewrite opt_member_prop.
Qed.

Lemma payeeOnChange_calls_witness :
  ExpenseFormBody.payeeOnChange (VObj [("value", profileB)])
  = ([SetFieldValue "payee" profileB; SetFieldValue "payoutMethod" VNull], None).
Proof.
  exact (payeeOnChange_calls (VObj [("value", profileB)]) eq_refl).
Defined.

(** X13. The effect that fills in the address never raises on the values of
    a form.  It does nothing when the address is filled or when the payee is
    absent or has no [location]; otherwise it sets the country and the
    address from the payee's location, and nothing else. *)
Theorem prefillAddressEffect_calls (values : value) :
  nullish values = false ->
  let address := opt_member (prop values "payeeLocation") "address" in
  let location := opt_member (prop values "payee") "location" in
  ExpenseFormBody.prefillAddressEffect values
  = (if negb (truthy address) && truthy location
     then [SetFieldValue "payeeLocation.country"
             (or_else (prop location "country") VNull);
           SetFieldValue "payeeLocation.address"
             (or_else (prop location "address") (VStr ""))]
     else [],
     Some tt).
Proof.
  intros N address location.
  unfold ExpenseFormBody.prefillAddressEffect.
  rewrite !member_defined by exact N. cbn [lift ebind]. fold address.
  destruct (truthy address); cbn [negb andb]; [reflexivity|].
  fold location. destruct (truthy location) eqn:L; [|reflexivity].
  cbn [app]. rewrite setLocationFromPayee_located.
  - subst location. now rewrite opt_member_prop.
  - fold location. now destruct location.
Qed.

Lemma prefillAddressEffect_calls_witness :
  ExpenseFormBody.prefillAddressEffect
    (VObj [("payee", profileA);
           ("payeeLocation", VObj [("address", VStr ""); ("country", VNull)])])
  = ([SetFieldValue "payeeLocation.country" (VStr "BE");
      SetFieldValue "payeeLocation.address" (VStr "1 Main Street")],
     Some tt).
Proof.
  exact (prefillAddressEffect_calls
           (VObj [("payee", profileA);
                  ("payeeLocation",
                    VObj [("address", VStr ""); ("country", VNull)])])
           eq_refl).
Defined.

Section Refresh.



End Refresh.



(* ================================================================== *)
(** ** The persisted values *)

(** X15. The effect that loads the persisted values sets nothing while the
    form is dirty.  When it loads, it sets the persisted values once, as
    they are, unless they pay to a bank account and the collective's host
    has no [transferwise]: then [payoutMethod] is reset to [undefined] and
    every other value is kept. *)
Theorem loadValuesEffect_resets_bank_account `{PayoutMethodTypes}
        (shouldLoad dirty formValues collective : value) :
  (truthy dirty = true ->
   ExpenseFormBody.loadValuesEffect shouldLoad (Some formValues) dirty collective
   = ([], Some tt))
  /\ (truthy shouldLoad = true -> truthy dirty = false ->
      truthy formValues = true -> nullish collective = false ->
      let bank :=
        strict_eq_str (prop (prop formValues "payoutMethod") "type")
          BANK_ACCOUNT in
      let transferwise :=
        truthy (opt_member (prop collective "host") "transferwise") in
      exists values,
        ExpenseFormBody.loadValuesEffect shouldLoad (Some formValues) dirty
          collective
        = ([SetValues values], Some tt)
        /\ (forall k, k <> "payoutMethod" -> prop values k = prop formValues k)
        /\ prop values "payoutMethod"
           = if bank && negb transferwise then VUndef
             else prop formValues "payoutMethod").
Proof.
  split.
  - intros D. unfold ExpenseFormBody.loadValuesEffect.
    rewrite D. now destruct (truthy shouldLoad).
  - intros S D T N bank transferwise.
    unfold ExpenseFormBody.loadValuesEffect. rewrite S, D, T. cbn [negb].
    assert (NF : nullish formValues = false) by (now destruct formValues).
    rewrite member_defined by exact NF. cbn [lift ebind].
    rewrite opt_member_prop. fold bank.
    destruct bank eqn:B; cbn [andb].
    + rewrite member_defined by exact N. cbn [bind ret]. fold transferwise.
      destruct transferwise; cbn [negb emit app].
      * exists formValues. now repeat split.
      * eexists. split; [reflexivity|]. split.
        -- intros k Hk. unfold prop at 1.
           rewrite lookup_set_field_other by (intros E; now apply Hk).
           now destruct formValues.
        -- unfold prop at 1. now rewrite lookup_set_field_same.
    + cbn [ebind emit app]. exists formValues. now repeat split.
Qed.

Lemma loadValuesEffect_resets_bank_account_witness :
  exists values,
    @ExpenseFormBody.loadValuesEffect samplePayoutMethodTypes
      (VBool true) (Some receiptDraft) (VBool false)
      (VObj [("slug", VStr "webpack"); ("host", VObj [("slug", VStr "host")])])
    = ([SetValues values], Some tt)
    /\ prop values "payoutMethod" = VUndef
    /\ prop values "payee" = prop receiptDraft "payee".
Proof.
  destruct (@loadValuesEffect_resets_bank_account samplePayoutMethodTypes
              (VBool true) (VBool false) receiptDraft
              (VObj [("slug", VStr "webpack");
                     ("host", VObj [("slug", VStr "host")])]))
    as [_ L].
  destruct (L eq_refl eq_refl eq_refl eq_refl) as (values & E & K & P).
  exists values. split; [exact E|]. split; [exact P|].
  apply K. discriminate.
Defined.

(* ================================================================== *)
(** ** Submitting, the initial values and the steps *)

Section Form.
Context `{Imports}.






Lemma truthy_not_missing (v : value) :
  truthy v = true -> FormUtils.isMissing v = false.
Proof.
  destruct v; simpl; try discriminate; try reflexivity.
  intros E. now apply negb_true_iff in E.
Qed.

End Form.







(** X19. With an array of items, the submit button is enabled exactly when
    the payout method, the type and the description are filled, there is at
    least one item and formik reports the form valid. *)
Theorem submit_enabled (values isValid : value) (items : list value) :
  prop values "items" = VArr items ->
  ExpenseFormBody.submitDisabled values isValid
  = Some (negb (truthy (prop values "payoutMethod")
                && truthy (prop values "type")
                && truthy (prop values "description")
                && negb (Nat.eqb (List.length items) 0)
                && truthy isValid)).
Proof.
  intros I. pose proof (items_object _ _ I) as N.
  unfold ExpenseFormBody.submitDisabled, ExpenseFormBody.stepTwoCompleted,
    ExpenseFormBody.hasBaseFormFieldsCompleted,
    ExpenseFormBody.stepOneCompleted.
  rewrite !member_defined by exact N. rewrite I.
  destruct (truthy (prop values "type")) eqn:Tt;
    destruct (truthy (prop values "payoutMethod")) eqn:Tp;
    repeat (progress (cbn [bind ret andb negb orb]; rewrite ?Tt, ?Tp));
    try reflexivity.
  destruct (truthy (prop values "description")) eqn:Td;
    cbn [bind ret andb negb length_of gt_zero]; rewrite ?Td;
    cbn [negb orb]; [|reflexivity].
  now destruct items.
Qed.

Lemma submit_enabled_witness :
  ExpenseFormBody.submitDisabled receiptDraft (VBool true) = Some false.
Proof.
  exact (submit_enabled receiptDraft (VBool true) [lunch] eq_refl).
Defined.

(** X20. The step of the sign-up form never raises on the values of a form,
    a missing [payeeLocation] included.  It is completed, on behalf of
    someone, when there is a payee; for a receipt, when there is a payout
    method; otherwise when the payout method, the country and the address
    are all filled. *)
Theorem signup_step_completed `{Imports} (isOnBehalf values : value) :
  nullish values = false ->
  let payoutMethod := prop values "payoutMethod" in
  let payeeLocation := prop values "payeeLocation" in
  exists r,
    ExpenseFormPayeeStep.stepOneCompleted isOnBehalf values = Some r
    /\ truthy r
       = if truthy isOnBehalf then truthy (prop values "payee")
         else if strict_eq_str (prop values "type") RECEIPT
              then truthy payoutMethod
              else truthy payoutMethod
                   && truthy (prop payeeLocation "country")
                   && truthy (prop payeeLocation "address").
Proof.
  intros N payoutMethod payeeLocation.
  unfold ExpenseFormPayeeStep.stepOneCompleted.
  rewrite !member_defined by exact N. cbn [bind ret].
  fold payoutMethod. fold payeeLocation. rewrite !opt_member_prop.
  destruct (truthy isOnBehalf); [eauto|].
  destruct (strict_eq_str (prop values "type") RECEIPT); [eauto|].
  destruct (truthy payoutMethod) eqn:P; cbn [andb]; [|eauto].
  destruct (truthy (prop payeeLocation "country")) eqn:C; cbn [andb]; eauto.
Qed.

Lemma signup_step_completed_witness :
  exists r,
    @ExpenseFormPayeeStep.stepOneCompleted sampleImports (VBool false)
      (VObj [("type", VStr "INVOICE"); ("payoutMethod", bankAccount)])
    = Some r
    /\ truthy r = false.
Proof.
  exact (@signup_step_completed sampleImports (VBool false)
           (VObj [("type", VStr "INVOICE"); ("payoutMethod", bankAccount)])
           eq_refl).
Defined.
